(** * Koyeb keep-alive worker: a shallow embedding of [_worker.js]

    The worker is orchestration code over three platform services: the
    wall clock, the network ([fetch]) and an optional key-value namespace
    ([env.LOG_KV]).  The services are modelled as a [World] that scripts
    their answers and records what the program did to them; the program
    itself is written in a state-and-exception monad over that world, so
    that [try]/[catch] and the order of effects read as in the source. *)

From Stdlib Require Import ZArith String Ascii List Bool Lia Decimal DecimalZ DecimalPos.
From stdpp Require Import base option list strings gmap.

Set Warnings "-register-all".

Local Open Scope string_scope.
Local Open Scope list_scope.
Local Open Scope Z_scope.

(** ** JavaScript values *)

(** What [JSON.parse] can return.  Numbers are the integral ones (status
    codes, millisecond counts); an object lists its own properties in
    order; [undefined] is the [None] of an [option JsValue]. *)
Inductive JsValue : Type :=
  | JNull
  | JBool (b : bool)
  | JNum (n : Z)
  | JStr (s : string)
  | JArr (elems : list JsValue)
  | JObj (props : list (string * JsValue)).

(** A thrown [Error]: the program only ever reads [message]. *)
Record JsError : Type := mkError { name : string; message : string }.

Definition TypeError (msg : string) : JsError := mkError "TypeError" msg.

(** Completion of an evaluation: a value, or a thrown error. *)
Inductive Outcome (A : Type) : Type :=
  | Ret (a : A)
  | Throw (e : JsError).
Arguments Ret {A} a.
Arguments Throw {A} e.

(** Truthiness of a string-or-undefined ([env.X], the result of
    [KV.get]): the empty string is falsy. *)
Definition truthy_str (o : option string) : bool :=
  match o with
  | Some s => negb (String.eqb s "")
  | None => false
  end.

(** Truthiness of a value-or-undefined, as [||] tests it. *)
Definition truthy (o : option JsValue) : bool :=
  match o with
  | None => false
  | Some JNull => false
  | Some (JBool b) => b
  | Some (JNum n) => negb (Z.eqb n 0)
  | Some (JStr s) => negb (String.eqb s "")
  | Some (JArr _) => true
  | Some (JObj _) => true
  end.

Fixpoint assoc (key : string) (props : list (string * JsValue)) : option JsValue :=
  match props with
  | [] => None
  | (k, v) :: rest => if String.eqb k key then Some v else assoc key rest
  end.

(** [v.key] for the two keys the program reads, [user] and [email]: no
    prototype defines them, so only an object's own property answers;
    reading a property of [null] throws. *)
Definition get_prop (v : JsValue) (key : string) : Outcome (option JsValue) :=
  match v with
  | JNull => Throw (TypeError ("Cannot read properties of null (reading '" +:+ key +:+ "')"))
  | JObj props => Ret (assoc key props)
  | _ => Ret None
  end.

(** [v?.key]: short-circuits on [undefined] and [null]. *)
Definition get_prop_opt (o : option JsValue) (key : string) : Outcome (option JsValue) :=
  match o with
  | None | Some JNull => Ret None
  | Some v => get_prop v key
  end.

(** *** Numbers as text *)

(** The decimal digits of [d], written in front of [k]. *)
Fixpoint write_uint (d : Decimal.uint) (k : string) : string :=
  match d with
  | Decimal.Nil => k
  | Decimal.D0 d => String "0" (write_uint d k)
  | Decimal.D1 d => String "1" (write_uint d k)
  | Decimal.D2 d => String "2" (write_uint d k)
  | Decimal.D3 d => String "3" (write_uint d k)
  | Decimal.D4 d => String "4" (write_uint d k)
  | Decimal.D5 d => String "5" (write_uint d k)
  | Decimal.D6 d => String "6" (write_uint d k)
  | Decimal.D7 d => String "7" (write_uint d k)
  | Decimal.D8 d => String "8" (write_uint d k)
  | Decimal.D9 d => String "9" (write_uint d k)
  end.

Definition write_int (n : Z) (k : string) : string :=
  match Z.to_int n with
  | Decimal.Pos d => write_uint d k
  | Decimal.Neg d => String "-" (write_uint d k)
  end.

(** [Number::toString] of an integer: [`${n}`]. *)
Definition number_to_string (n : Z) : string := write_int n "".

Definition join (sep : string) (parts : list string) : string :=
  match parts with
  | [] => ""
  | p :: ps => fold_left (fun acc q => acc +:+ sep +:+ q) ps p
  end.

Definition sequence_opt {A} (l : list (option A)) : option (list A) :=
  fold_right (fun o acc => match o, acc with
                           | Some a, Some r => Some (a :: r)
                           | _, _ => None
                           end) (Some []) l.

(** String conversion inside a template literal.  [None] is the
    [TypeError] of an object that cannot be converted to a primitive: a
    parsed object whose own [toString] property shadows the inherited
    method. Arrays join their elements, [null] elements printing empty. *)
Fixpoint ToString (v : JsValue) : option string :=
  match v with
  | JNull => Some "null"
  | JBool true => Some "true"
  | JBool false => Some "false"
  | JNum n => Some (number_to_string n)
  | JStr s => Some s
  | JArr elems =>
      join "," <$>
        sequence_opt (map (fun e => match e with
                                    | JNull => Some ""
                                    | _ => ToString e
                                    end) elems)
  | JObj props =>
      match assoc "toString" props with
      | Some _ => None
      | None => Some "[object Object]"
      end
  end.

(** ** The world the worker runs in *)

(** An outgoing [fetch] call. *)
Record FetchCall : Type := mkFetchCall {
  call_url : string;
  call_headers : list (string * string)
}.

(** What the program reads of a [Response]: the status line and the
    completion of [response.json()]. *)
Record Response : Type := mkResponse {
  status : Z;
  statusText : string;
  json : Outcome JsValue
}.

(** [response.ok], as the Fetch standard defines it. *)
Definition ok (r : Response) : bool := (200 <=? status r) && (status r <=? 299).

Record World : Type := mkWorld {
  clock : list Z;                      (* successive readings of the wall clock, in ms *)
  network : list (Outcome Response);   (* completions of the successive fetch calls *)
  calls : list FetchCall;              (* fetch calls issued so far, latest first *)
  kv_data : gmap string string;        (* contents of the LOG_KV namespace *)
  kv_faults : list (option JsError);   (* Some e: that KV operation throws e *)
  console : list (string * JsError)    (* console.error lines, latest first *)
}.

(** ** Computations *)

Definition M (A : Type) : Type := World -> Outcome A * World.

Definition ret {A} (a : A) : M A := fun w => (Ret a, w).

Definition throw {A} (e : JsError) : M A := fun w => (Throw e, w).

Definition bind {A B} (m : M A) (k : A -> M B) : M B :=
  fun w => match m w with
           | (Ret a, w') => k a w'
           | (Throw e, w') => (Throw e, w')
           end.

(** [try { m } catch (e) { h e }] *)
Definition try_catch {A} (m : M A) (h : JsError -> M A) : M A :=
  fun w => match m w with
           | (Ret a, w') => (Ret a, w')
           | (Throw e, w') => h e w'
           end.

Definition lift {A} (o : Outcome A) : M A := fun w => (o, w).

Declare Scope js_scope.
Delimit Scope js_scope with js.
Notation "'let*' x ':=' m 'in' k" := (bind m (fun x => k))
  (at level 10, x name, m at level 100, k at level 200) : js_scope.
Notation "'let*' ' p ':=' m 'in' k" := (bind m (fun x => match x with p => k end))
  (at level 10, p pattern, m at level 100, k at level 200) : js_scope.
Notation "m '>>' k" := (bind m (fun _ => k))
  (at level 100, k at level 200, right associativity) : js_scope.
Local Open Scope js_scope.

(** *** Platform services *)

(** [Date.now()]: the next reading of the clock. *)
Definition Date_now : M Z :=
  fun w => match clock w with
           | [] => (Ret 0, w)
           | t :: rest =>
               (Ret t, mkWorld rest (network w) (calls w) (kv_data w) (kv_faults w) (console w))
           end.

(** [fetch(url, {headers})]: the call is recorded, and completes as the
    network script says (a script that ran out refuses the connection). *)
Definition fetch (url : string) (headers : list (string * string)) : M Response :=
  fun w =>
    let cs := mkFetchCall url headers :: calls w in
    match network w with
    | [] => (Throw (TypeError "fetch failed"),
             mkWorld (clock w) [] cs (kv_data w) (kv_faults w) (console w))
    | r :: rest => (r, mkWorld (clock w) rest cs (kv_data w) (kv_faults w) (console w))
    end.

(** One KV operation: it throws when the fault plan says so, leaving the
    namespace as it was, and otherwise runs. *)
Definition kv_op {A} (run : gmap string string -> A * gmap string string) : M A :=
  fun w =>
    match kv_faults w with
    | Some e :: plan =>
        (Throw e, mkWorld (clock w) (network w) (calls w) (kv_data w) plan (console w))
    | f =>
        let '(a, d) := run (kv_data w) in
        (Ret a, mkWorld (clock w) (network w) (calls w) d (tail f) (console w))
    end.

Definition kv_get (key : string) : M (option string) :=
  kv_op (fun d => (d !! key, d)).

Definition kv_put (key value : string) : M unit :=
  kv_op (fun d => (tt, <[key := value]> d)).

Definition console_error (label : string) (e : JsError) : M unit :=
  fun w => (Ret tt, mkWorld (clock w) (network w) (calls w) (kv_data w) (kv_faults w)
                            ((label, e) :: console w)).

(** The built-ins whose text format plays no part in the program's logic. *)
Class Platform : Type := {
  JSON_parse : string -> JsError + JsValue;   (* inl: the SyntaxError thrown *)
  JSON_stringify : JsValue -> string;
  toISOString : Z -> string                   (* of the Date at that reading *)
}.

(** [JSON.parse] undoes [JSON.stringify], whose text is never empty. *)
Class JsonLaws (P : Platform) : Prop := {
  parse_stringify : forall v, JSON_parse (JSON_stringify v) = inr v;
  stringify_nonempty : forall v, JSON_stringify v <> ""
}.

(** ** The worker *)

Record Env : Type := mkEnv {
  KOYEB_TOKEN : option string;
  KOYEB_APP_URL : option string;
  LOG_KV : bool            (* is a namespace bound?  Its contents are in the world. *)
}.

(** [CONFIG.LOG_LIMIT] *)
Definition LOG_LIMIT : nat := 20.

(** The object [{ success, logs }] that [keepAlive] returns. *)
Record RunResult : Type := mkResult { success : bool; logs : list string }.

(** A response of the worker: its body and [Content-Type]. *)
Record Reply : Type := mkReply { body : string; content_type : string }.

Section Worker.
Context {P : Platform}.

(** The dashboard's markup, as a function of the two flags it
    interpolates ([hasToken], [hasKV]). *)
Variable dashboard : bool -> bool -> string.

Definition new_Date_toISOString : M string :=
  let* t := Date_now in ret (toISOString t).

Definition parse (text : string) : M JsValue :=
  match JSON_parse text with
  | inl e => throw e
  | inr v => ret v
  end.

(** [history.unshift(entry)]: only an array has the method. *)
Definition unshift (history : JsValue) (entry : JsValue) : M JsValue :=
  match history with
  | JArr elems => ret (JArr (entry :: elems))
  | JNull => throw (TypeError "Cannot read properties of null (reading 'unshift')")
  | _ => throw (TypeError "history.unshift is not a function")
  end.

(** [{ time, status, messages }] *)
Definition logEntry (time : string) (status : bool) (newLogs : list string) : JsValue :=
  JObj [("time", JStr time);
        ("status", JStr (if status then "success" else "error"));
        ("messages", JArr (map JStr newLogs))].

(** [if (history.length > LOG_LIMIT) history = history.slice(0, LOG_LIMIT)] *)
Definition limit (history : JsValue) : JsValue :=
  match history with
  | JArr elems =>
      if (LOG_LIMIT <? length elems)%nat then JArr (take LOG_LIMIT elems) else history
  | _ => history
  end.

(** The record is built, and the clock read, before [unshift] is tried. *)
Definition saveLogs (env : Env) (newLogs : list string) (status : bool) : M unit :=
  if negb (LOG_KV env) then ret tt
  else
    try_catch
      (let* existing := kv_get "history" in
       let* history :=
         (if truthy_str existing then parse (default "" existing) else ret (JArr [])) in
       let* time := new_Date_toISOString in
       let* history := unshift history (logEntry time status newLogs) in
       kv_put "history" (JSON_stringify (limit history)) >>
       let* last := new_Date_toISOString in
       kv_put "last_run" last)
      (fun e => console_error "KV Save Error:" e).

(** [data.user?.email || 'Unknown'], converted for the template. *)
Definition user_email (data : JsValue) : Outcome string :=
  match get_prop data "user" with
  | Throw e => Throw e
  | Ret user =>
      match get_prop_opt user "email" with
      | Throw e => Throw e
      | Ret email =>
          match ToString (if truthy email then default (JStr "Unknown") email
                          else JStr "Unknown") with
          | Some s => Ret s
          | None => Throw (TypeError "Cannot convert object to primitive value")
          end
      end
  end.

(** Step 2 of [keepAlive], the [try] block around the Koyeb API call
    and its [catch]: the new value of [success] and of [logs]. *)
Definition check_api (env : Env) (timestamp : string) (logs : list string)
    : M (bool * list string) :=
  try_catch
    (let* start := Date_now in
     let* response :=
       fetch "https://app.koyeb.com/v1/account/profile"
             [("Authorization", "Bearer " +:+ default "" (KOYEB_TOKEN env));
              ("Content-Type", "application/json")] in
     let* stop := Date_now in
     let duration := stop - start in
     if ok response then
       let* data := lift (json response) in
       let* email := lift (user_email data) in
       ret (true, logs ++
         ["[" +:+ timestamp +:+ "] ✅ Koyeb API 验证成功 (" +:+ number_to_string duration
              +:+ "ms) - 用户: " +:+ email])
     else
       ret (false, logs ++
         ["[" +:+ timestamp +:+ "] ❌ Koyeb API 失败: " +:+ number_to_string (status response)
              +:+ " " +:+ statusText response]))
    (fun error =>
       ret (false, logs ++
         ["[" +:+ timestamp +:+ "] ❌ Koyeb API 请求异常: " +:+ message error])).

(** Step 3 of [keepAlive], the optional ping of the application URL:
    the new value of [logs]. *)
Definition ping_app (env : Env) (timestamp : string) (logs : list string)
    : M (list string) :=
  if truthy_str (KOYEB_APP_URL env) then
    try_catch
      (let* start := Date_now in
       let* res := fetch (default "" (KOYEB_APP_URL env)) [] in
       let* stop := Date_now in
       let duration := stop - start in
       ret (logs ++
         ["[" +:+ timestamp +:+ "] 🌐 App Ping: " +:+ number_to_string (status res)
              +:+ " (" +:+ number_to_string duration +:+ "ms)"]))
      (fun e =>
         ret (logs ++ ["[" +:+ timestamp +:+ "] ⚠️ App Ping 失败: " +:+ message e]))
  else ret logs.

(** The two messages pushed before the API is called. *)
Definition start_message (timestamp source : string) : string :=
  "[" +:+ timestamp +:+ "] 🚀 任务开始 (来源: " +:+ source +:+ ")".

Definition missing_token_message (timestamp : string) : string :=
  "[" +:+ timestamp +:+ "] ❌ 错误: 未检测到 KOYEB_TOKEN 环境变量。请在设置中配置。".

(** Both callers pass [source]; its default, 'Manual', is never used. *)
Definition keepAlive (env : Env) (source : string) : M RunResult :=
  let* timestamp := new_Date_toISOString in
  let logs := [start_message timestamp source] in
  if negb (truthy_str (KOYEB_TOKEN env)) then
    let logs := logs ++ [missing_token_message timestamp] in
    saveLogs env logs false >>
    ret (mkResult false logs)
  else
    let* '(success, logs) := check_api env timestamp logs in
    let* logs := ping_app env timestamp logs in
    saveLogs env logs success >>
    ret (mkResult success logs).

(** [JSON.stringify(result)] of a [{ success, logs }] object. *)
Definition result_value (r : RunResult) : JsValue :=
  JObj [("success", JBool (success r)); ("logs", JArr (map JStr (logs r)))].

Definition handleTrigger (env : Env) : M Reply :=
  let* result := keepAlive env "Web Dashboard" in
  ret (mkReply (JSON_stringify (result_value result)) "application/json").

Definition handleGetLogs (env : Env) : M Reply :=
  let* history :=
    (if LOG_KV env then
       try_catch
         (let* data := kv_get "history" in
          if truthy_str data then parse (default "" data) else ret (JArr []))
         (fun e => ret (JArr []))
     else ret (JArr [])) in
  ret (mkReply (JSON_stringify history) "application/json").

Definition getHtml (env : Env) : string :=
  let hasToken := truthy_str (KOYEB_TOKEN env) in
  let hasKV := LOG_KV env in
  dashboard hasToken hasKV.

(** The exported [fetch] handler, on the [pathname] of the request's URL
    (the name [fetch] is taken by the platform's function). *)
Definition fetch_handler (pathname : string) (env : Env) : M Reply :=
  if String.eqb pathname "/api/trigger" then handleTrigger env
  else if String.eqb pathname "/api/logs" then handleGetLogs env
  else ret (mkReply (getHtml env) "text/html;charset=UTF-8").

(** The [scheduled] handler: the promise handed to [ctx.waitUntil]. *)
Definition scheduled (env : Env) : M RunResult := keepAlive env "Cron Scheduled".

End Worker.

(** ** A reference platform

    A concrete [JSON] codec and [Date] formatter, so that the worker can
    be run on concrete worlds.  The codec covers the integer fragment of
    JSON; of the [\u] escapes it reads those of the Basic Multilingual
    Plane outside the surrogate range. *)

(** *** Writing JSON *)

Definition hex_digit (n : N) : ascii :=
  match n with
  | 0%N => "0" | 1%N => "1" | 2%N => "2" | 3%N => "3" | 4%N => "4" | 5%N => "5"
  | 6%N => "6" | 7%N => "7" | 8%N => "8" | 9%N => "9" | 10%N => "a" | 11%N => "b"
  | 12%N => "c" | 13%N => "d" | 14%N => "e" | _ => "f"
  end%char.

(** [QuoteJSONString] on one character: the quote, the backslash and the
    control characters are escaped. *)
Definition write_char (c : ascii) (k : string) : string :=
  let n := N_of_ascii c in
  if (n =? 34)%N then String "\" (String "034" k)
  else if (n =? 92)%N then String "\" (String "\" k)
  else if (n =? 8)%N then String "\" (String "b" k)
  else if (n =? 9)%N then String "\" (String "t" k)
  else if (n =? 10)%N then String "\" (String "n" k)
  else if (n =? 12)%N then String "\" (String "f" k)
  else if (n =? 13)%N then String "\" (String "r" k)
  else if (n <? 32)%N then
    String "\" (String "u" (String "0" (String "0"
      (String (hex_digit (n / 16)) (String (hex_digit (n mod 16)) k)))))
  else String c k.

Fixpoint write_chars (s : string) (k : string) : string :=
  match s with
  | EmptyString => k
  | String c r => write_char c (write_chars r k)
  end.

Definition write_string (s : string) (k : string) : string :=
  String "034" (write_chars s (String "034" k)).

(** The JSON text of [v], written in front of [k]. *)
Fixpoint write (v : JsValue) (k : string) : string :=
  match v with
  | JNull => "null" +:+ k
  | JBool true => "true" +:+ k
  | JBool false => "false" +:+ k
  | JNum n => write_int n k
  | JStr s => write_string s k
  | JArr [] => "[]" +:+ k
  | JArr (e :: es) =>
      String "[" (write e
        (fold_right (fun e acc => String "," (write e acc)) (String "]" k) es))
  | JObj [] => "{}" +:+ k
  | JObj ((key, e) :: ps) =>
      String "{" (write_string key (String ":" (write e
        (fold_right (fun p acc => String "," (write_string (fst p) (String ":" (write (snd p) acc))))
                    (String "}" k) ps))))
  end.

Definition stringify (v : JsValue) : string := write v "".

(** *** Reading JSON *)

Fixpoint skip_ws (s : string) : string :=
  match s with
  | String c r =>
      if ((N_of_ascii c =? 32) || (N_of_ascii c =? 9) ||
          (N_of_ascii c =? 10) || (N_of_ascii c =? 13))%N
      then skip_ws r else s
  | EmptyString => s
  end.

Definition digit_of (c : ascii) : option (Decimal.uint -> Decimal.uint) :=
  match c with
  | "0" => Some Decimal.D0 | "1" => Some Decimal.D1 | "2" => Some Decimal.D2
  | "3" => Some Decimal.D3 | "4" => Some Decimal.D4 | "5" => Some Decimal.D5
  | "6" => Some Decimal.D6 | "7" => Some Decimal.D7 | "8" => Some Decimal.D8
  | "9" => Some Decimal.D9 | _ => None
  end%char.

(** The longest run of digits at the head of [s], and what follows it. *)
Fixpoint read_uint (s : string) : Decimal.uint * string :=
  match s with
  | String c r =>
      match digit_of c with
      | Some d => let '(u, r') := read_uint r in (d u, r')
      | None => (Decimal.Nil, s)
      end
  | EmptyString => (Decimal.Nil, s)
  end.

Definition hex_value (c : ascii) : option N :=
  let n := N_of_ascii c in
  if ((48 <=? n) && (n <=? 57))%N then Some (n - 48)%N
  else if ((97 <=? n) && (n <=? 102))%N then Some (n - 87)%N
  else if ((65 <=? n) && (n <=? 70))%N then Some (n - 55)%N
  else None.

Definition hex4 (a b c d : ascii) : option N :=
  match hex_value a, hex_value b, hex_value c, hex_value d with
  | Some x, Some y, Some z, Some t => Some (((x * 16 + y) * 16 + z) * 16 + t)%N
  | _, _, _, _ => None
  end.

(** The UTF-8 bytes of a code point below [0x10000], in front of [k];
    surrogates have none. *)
Definition write_utf8 (n : N) (k : string) : option string :=
  if (n <? 128)%N then Some (String (ascii_of_N n) k)
  else if (n <? 2048)%N then
    Some (String (ascii_of_N (192 + n / 64)) (String (ascii_of_N (128 + n mod 64)) k))
  else if ((55296 <=? n) && (n <=? 57343))%N then None
  else
    Some (String (ascii_of_N (224 + n / 4096))
           (String (ascii_of_N (128 + (n / 64) mod 64))
             (String (ascii_of_N (128 + n mod 64)) k))).

(** The characters of a string literal after its opening quote, up to the
    closing one, and what follows it. *)
Fixpoint read_chars (s : string) : option (string * string) :=
  match s with
  | EmptyString => None
  | String c r =>
      if (N_of_ascii c =? 34)%N then Some (EmptyString, r)
      else if (N_of_ascii c =? 92)%N then
        match r with
        | String e r1 =>
            let plain (x : ascii) :=
              match read_chars r1 with
              | Some (t, r') => Some (String x t, r')
              | None => None
              end in
            match e with
            | "034" => plain "034"
            | "\" => plain "\"
            | "/" => plain "/"
            | "b" => plain (ascii_of_N 8)
            | "t" => plain (ascii_of_N 9)
            | "n" => plain (ascii_of_N 10)
            | "f" => plain (ascii_of_N 12)
            | "r" => plain (ascii_of_N 13)
            | "u" =>
                match r1 with
                | String h1 (String h2 (String h3 (String h4 r5))) =>
                    match hex4 h1 h2 h3 h4, read_chars r5 with
                    | Some n, Some (t, r') =>
                        match write_utf8 n t with
                        | Some t' => Some (t', r')
                        | None => None
                        end
                    | _, _ => None
                    end
                | _ => None
                end
            | _ => None
            end%char
        | EmptyString => None
        end
      else if (N_of_ascii c <? 32)%N then None
      else
        match read_chars r with
        | Some (t, r') => Some (String c t, r')
        | None => None
        end
  end.

Fixpoint strip_prefix (word s : string) : option string :=
  match word with
  | EmptyString => Some s
  | String a w =>
      match s with
      | String b r => if Ascii.eqb a b then strip_prefix w r else None
      | EmptyString => None
      end
  end.

Definition expect (word : string) (s : string) (v : JsValue) : option (JsValue * string) :=
  match strip_prefix word s with
  | Some r => Some (v, r)
  | None => None
  end.

Fixpoint parse_value (fuel : nat) (s : string) : option (JsValue * string) :=
  match fuel with
  | O => None
  | S fuel =>
      match skip_ws s with
      | EmptyString => None
      | String c r =>
          match c with
          | "n" => expect "ull" r JNull
          | "t" => expect "rue" r (JBool true)
          | "f" => expect "alse" r (JBool false)
          | "034" =>
              match read_chars r with
              | Some (t, r') => Some (JStr t, r')
              | None => None
              end
          | "[" =>
              match skip_ws r with
              | String "]" r' => Some (JArr [], r')
              | _ =>
                  match parse_elems fuel r with
                  | Some (l, r') => Some (JArr l, r')
                  | None => None
                  end
              end
          | "{" =>
              match skip_ws r with
              | String "}" r' => Some (JObj [], r')
              | _ =>
                  match parse_members fuel r with
                  | Some (l, r') => Some (JObj l, r')
                  | None => None
                  end
              end
          | "-" =>
              match read_uint r with
              | (Decimal.Nil, _) => None
              | (u, r') => Some (JNum (Z.of_int (Decimal.Neg u)), r')
              end
          | _ =>
              match read_uint (String c r) with
              | (Decimal.Nil, _) => None
              | (u, r') => Some (JNum (Z.of_int (Decimal.Pos u)), r')
              end
          end%char
      end
  end
with parse_elems (fuel : nat) (s : string) : option (list JsValue * string) :=
  match fuel with
  | O => None
  | S fuel =>
      match parse_value fuel s with
      | Some (v, r) =>
          match skip_ws r with
          | String "," r' =>
              match parse_elems fuel r' with
              | Some (l, r'') => Some (v :: l, r'')
              | None => None
              end
          | String "]" r' => Some ([v], r')
          | _ => None
          end
      | None => None
      end
  end
with parse_members (fuel : nat) (s : string) : option (list (string * JsValue) * string) :=
  match fuel with
  | O => None
  | S fuel =>
      match skip_ws s with
      | String "034" r =>
          match read_chars r with
          | Some (key, r1) =>
              match skip_ws r1 with
              | String ":" r2 =>
                  match parse_value fuel r2 with
                  | Some (v, r3) =>
                      match skip_ws r3 with
                      | String "," r4 =>
                          match parse_members fuel r4 with
                          | Some (l, r5) => Some ((key, v) :: l, r5)
                          | None => None
                          end
                      | String "}" r4 => Some ([(key, v)], r4)
                      | _ => None
                      end
                  | None => None
                  end
              | _ => None
              end
          | None => None
          end
      | _ => None
      end
  end.

(** A whole text: one value, with nothing but white space after it. *)
Definition parse_text (s : string) : JsError + JsValue :=
  match parse_value (S (String.length s)) s with
  | Some (v, r) =>
      match skip_ws r with
      | EmptyString => inr v
      | _ => inl (mkError "SyntaxError" "Unexpected non-whitespace character after JSON")
      end
  | None => inl (mkError "SyntaxError" "Unexpected token in JSON")
  end.

(** *** Formatting dates *)

(** The civil date (year, month, day) of a day count from 1970-01-01. *)
Definition civil_from_days (days : Z) : Z * Z * Z :=
  let z := days + 719468 in
  let era := z / 146097 in
  let doe := z - era * 146097 in
  let yoe := (doe - doe / 1460 + doe / 36524 - doe / 146096) / 365 in
  let doy := doe - (365 * yoe + yoe / 4 - yoe / 100) in
  let mp := (5 * doy + 2) / 153 in
  let d := doy - (153 * mp + 2) / 5 + 1 in
  let m := if mp <? 10 then mp + 3 else mp - 9 in
  let y := yoe + era * 400 + (if m <=? 2 then 1 else 0) in
  (y, m, d).

Fixpoint zeros (n : nat) (k : string) : string :=
  match n with
  | O => k
  | S n => String "0" (zeros n k)
  end.

Definition pad (width : nat) (n : Z) : string :=
  let digits := number_to_string n in
  zeros (width - String.length digits) digits.

Definition format_year (y : Z) : string :=
  if (0 <=? y) && (y <=? 9999) then pad 4 y
  else if y <? 0 then "-" +:+ pad 6 (- y)
  else "+" +:+ pad 6 y.

(** [Date.prototype.toISOString] of the date [ms] milliseconds after the
    epoch. *)
Definition format_iso (ms : Z) : string :=
  let '(y, m, d) := civil_from_days (ms / 86400000) in
  let t := ms mod 86400000 in
  format_year y +:+ "-" +:+ pad 2 m +:+ "-" +:+ pad 2 d +:+ "T" +:+
  pad 2 (t / 3600000) +:+ ":" +:+ pad 2 (t / 60000 mod 60) +:+ ":" +:+
  pad 2 (t / 1000 mod 60) +:+ "." +:+ pad 3 (t mod 1000) +:+ "Z".

#[export] Instance reference : Platform := {|
  JSON_parse := parse_text;
  JSON_stringify := stringify;
  toISOString := format_iso
|}.

(** ** Vocabulary of the statements *)

(** [m] always completes normally. *)
Definition total {A} (m : M A) : Prop :=
  forall w, exists a w', m w = (Ret a, w').

(** Every run of [m] takes a world to an [R]-related one. *)
Definition keeps {A} (R : World -> World -> Prop) (m : M A) : Prop :=
  forall w, R w (snd (m w)).

(** The network is as it was: no call issued, no reply consumed. *)
Definition same_network (w w' : World) : Prop :=
  calls w' = calls w /\ network w' = network w.

(** The namespace is as it was: same contents, same fault plan. *)
Definition same_kv (w w' : World) : Prop :=
  kv_data w' = kv_data w /\ kv_faults w' = kv_faults w.

(** The next KV operation does not throw. *)
Definition no_fault (plan : list (option JsError)) : Prop :=
  match plan with
  | Some _ :: _ => False
  | _ => True
  end.

(** The next [n] KV operations do not throw. *)
Fixpoint calm (n : nat) (plan : list (option JsError)) : Prop :=
  match n with
  | O => True
  | S n => no_fault plan /\ calm n (tail plan)
  end.

(** The namespace never throws. *)
Definition never_faults (plan : list (option JsError)) : Prop :=
  Forall (fun f => f = None) plan.

(** The namespace is missing, or its read or its first write throws. *)
Definition store_unavailable (env : Env) (w : World) : Prop :=
  LOG_KV env = false \/
  match kv_faults w with
  | Some _ :: _ => True
  | None :: Some _ :: _ => True
  | _ => False
  end.

(** The history a stored text stands for, as [saveLogs] and
    [handleGetLogs] read it: none for a missing key or an empty text, the
    elements of the array otherwise; [None] when the text is not the JSON
    of an array. *)
Definition stored_history {P : Platform} (text : option string) : option (list JsValue) :=
  match text with
  | None => Some []
  | Some s =>
      if String.eqb s "" then Some []
      else match JSON_parse s with
           | inr (JArr l) => Some l
           | _ => None
           end
  end.

(** There is no history to list: no namespace, a read that throws, no
    [history] key, or a text under it that does not parse. *)
Definition history_unreadable {P : Platform} (env : Env) (w : World) : Prop :=
  LOG_KV env = false \/
  (exists e plan, kv_faults w = Some e :: plan) \/
  kv_data w !! "history" = None \/
  (exists text e, kv_data w !! "history" = Some text /\ JSON_parse text = inl e).

(** A run of appends, one per (messages, status) pair, oldest first. *)
Fixpoint append_all {P : Platform} (env : Env) (runs : list (list string * bool)) : M unit :=
  match runs with
  | [] => ret tt
  | (newLogs, status) :: rest => saveLogs env newLogs status >> append_all env rest
  end.

(** The [time] of the records of [n] successive appends: each append
    reads the clock twice, for its record and for [last_run]. *)
Fixpoint append_times {P : Platform} (readings : list Z) (n : nat) : list string :=
  match n with
  | O => []
  | S n => toISOString (hd 0 readings) :: append_times (tail (tail readings)) n
  end.

(** The records of a run of appends made at the given times, oldest first. *)
Definition entries {P : Platform} (times : list string) (runs : list (list string * bool))
    : list JsValue :=
  zip_with (fun time run => logEntry time (snd run) (fst run)) times runs.

(** The primary endpoint fails: its call throws (a script that ran out
    refuses the connection) or is answered outside 200..299. *)
Definition primary_fails (script : list (Outcome Response)) : Prop :=
  match script with
  | [] => True
  | Throw _ :: _ => True
  | Ret response :: _ => ok response = false
  end.

(** *** Vocabulary of the codec's proof *)

(** Nodes of a value: the fuel [parse_value] needs on its text. *)
Fixpoint size (v : JsValue) : nat :=
  match v with
  | JArr elems => S (fold_right (fun e n => S (size e + n)) O elems)
  | JObj props => S (fold_right (fun p n => S (size (snd p) + n)) O props)
  | _ => 1
  end.

(** A text that ends a number: empty, or starting with a delimiter. *)
Definition delimited (k : string) : Prop :=
  match k with
  | EmptyString => True
  | String c _ => c = ","%char \/ c = "]"%char \/ c = "}"%char
  end.

(** A text that does not go on with a digit. *)
Definition no_digit (k : string) : Prop :=
  match k with
  | EmptyString => True
  | String c _ => digit_of c = None
  end.

(** The first character of a value's text: not white space, and not a
    closing bracket. *)
Definition value_start (c : ascii) : bool :=
  match c with
  | "n" | "t" | "f" | "034" | "[" | "{" | "-" => true
  | "0" | "1" | "2" | "3" | "4" | "5" | "6" | "7" | "8" | "9" => true
  | _ => false
  end%char.

(** A value is read back from its text, given fuel for its nodes. *)
Definition reads_back (v : JsValue) : Prop :=
  forall k f, delimited k -> (size v <= f)%nat -> parse_value f (write v k) = Some (v, k).

(** ** Sample environments and worlds *)

Definition env_full : Env := mkEnv (Some "tok") (Some "https://app.example.com/health") true.

Definition env_no_token : Env := mkEnv None None true.

Definition page0 (hasToken hasKV : bool) : string := "<!DOCTYPE html>".

Definition profile_ok : Outcome Response :=
  Ret (mkResponse 200 "OK" (Ret (JObj [("user", JObj [("email", JStr "a@b.com")])]))).

Definition server_error : Outcome Response :=
  Ret (mkResponse 500 "Internal Server Error" (Ret JNull)).

Definition connection_lost : JsError := mkError "TypeError" "Network connection lost.".

Definition ticks : list Z :=
  [1730620800000; 1730620800010; 1730620800087; 1730620800090; 1730620800190;
   1730620800200; 1730620800250].

(** Nothing on the network, an empty namespace. *)
Definition world_idle : World := mkWorld ticks [] [] ∅ [] [].

(** The API answers, the application is unreachable. *)
Definition world_up : World := mkWorld ticks [profile_ok; Throw connection_lost] [] ∅ [] [].

(** The API answers 500, the application answers. *)
Definition world_down : World := mkWorld ticks [server_error; profile_ok] [] ∅ [] [].

(** The [history] key holds JSON that is not an array. *)
Definition world_object : World := mkWorld ticks [] [] {[ "history" := "{}" ]} [] [].

(** The [history] key holds text that is not JSON. *)
Definition world_garbled : World := mkWorld ticks [] [] {[ "history" := "not json" ]} [] [].

(** The namespace reads and writes once, then throws. *)
Definition world_put_fault : World :=
  mkWorld ticks [] [] ∅ [None; None; Some (mkError "Error" "KV PUT failed: 500")] [].

(** The namespace reads, then throws. *)
Definition world_write_fault : World :=
  mkWorld ticks [] [] ∅ [None; Some connection_lost] [].

Definition three_runs : list (list string * bool) :=
  [(["first"], true); (["second"], false); (["third"], true)].

Definition runs22 : list (list string * bool) :=
  map (fun n => ([number_to_string (Z.of_nat n)], Nat.even n)) (seq 1 22).

(** *** Vocabulary of the further properties *)

(** The world [w] with another namespace: contents [d], fault plan [f]. *)
Definition with_kv (d : gmap string string) (f : list (option JsError)) (w : World) : World :=
  mkWorld (clock w) (network w) (calls w) d f (console w).

(** [m] neither reads nor writes the namespace. *)
Definition kv_blind {A} (m : M A) : Prop :=
  forall w d f, m (with_kv d f w) = (fst (m w), with_kv d f (snd (m w))).

(** The call to the Koyeb API, and the ping of the application. *)
Definition api_call (env : Env) : FetchCall :=
  mkFetchCall "https://app.koyeb.com/v1/account/profile"
    [("Authorization", "Bearer " +:+ default "" (KOYEB_TOKEN env));
     ("Content-Type", "application/json")].

Definition ping_call (env : Env) : FetchCall :=
  mkFetchCall (default "" (KOYEB_APP_URL env)) [].

(** The next call is answered 2xx with a body the greeting reads. *)
Definition api_accepts (script : list (Outcome Response)) : bool :=
  match script with
  | Ret response :: _ =>
      ok response &&
      match json response with
      | Ret data => match user_email data with Ret _ => true | Throw _ => false end
      | Throw _ => false
      end
  | _ => false
  end.

(** The next call is answered, whatever the status. *)
Definition answered (script : list (Outcome Response)) : bool :=
  match script with
  | Ret _ :: _ => true
  | _ => false
  end.

(** [m] is a message stamped with [timestamp]. *)
Definition stamped (timestamp m : string) : Prop :=
  exists text, m = "[" +:+ timestamp +:+ "] " +:+ text.

(** The keys [saveLogs] writes. *)
Definition log_key (key : string) : bool :=
  String.eqb key "history" || String.eqb key "last_run".

(** No key of the namespace other than those of the log has changed. *)
Definition other_keys_kept (w w' : World) : Prop :=
  forall key, log_key key = false -> kv_data w' !! key = kv_data w !! key.

(** The path is one of the two API routes. *)
Definition api_route (pathname : string) : bool :=
  String.eqb pathname "/api/trigger" || String.eqb pathname "/api/logs".

(** ** Laws of the monad *)

Lemma total_ret {A} (a : A) : total (ret a).
Proof. intros w. exists a, w. reflexivity. Qed.

Lemma total_bind {A B} (m : M A) (k : A -> M B) :
  total m -> (forall a, total (k a)) -> total (bind m k).
Proof.
  intros Hm Hk w. unfold bind.
  destruct (Hm w) as (a & w1 & ->). apply Hk.
Qed.

Lemma total_try_catch {A} (m : M A) (h : JsError -> M A) :
  (forall e, total (h e)) -> total (try_catch m h).
Proof.
  intros Hh w. unfold try_catch.
  destruct (m w) as [[a | e] w1]; [by exists a, w1 | apply Hh].
Qed.

Lemma total_Date_now : total Date_now.
Proof. intros w. unfold Date_now. destruct (clock w); eauto. Qed.

Lemma total_console_error label e : total (console_error label e).
Proof. intros w. unfold console_error. eauto. Qed.

Create HintDb total.
#[export] Hint Resolve total_ret total_bind total_try_catch total_Date_now
  total_console_error : total.

Section Frames.
Context {A B : Type} (R : World -> World -> Prop) `{!PreOrder R}.

Lemma keeps_ret (a : A) : keeps R (ret a).
Proof. intros w. reflexivity. Qed.

Lemma keeps_throw (e : JsError) : keeps R (@throw A e).
Proof. intros w. reflexivity. Qed.

Lemma keeps_lift (o : Outcome A) : keeps R (lift o).
Proof. intros w. reflexivity. Qed.

Lemma keeps_bind (m : M A) (k : A -> M B) :
  keeps R m -> (forall a, keeps R (k a)) -> keeps R (bind m k).
Proof.
  intros Hm Hk w. unfold bind. specialize (Hm w).
  destruct (m w) as [[a | e] w1]; simpl in *; [| done].
  etransitivity; [exact Hm | apply Hk].
Qed.

Lemma keeps_try_catch (m : M A) (h : JsError -> M A) :
  keeps R m -> (forall e, keeps R (h e)) -> keeps R (try_catch m h).
Proof.
  intros Hm Hh w. unfold try_catch. specialize (Hm w).
  destruct (m w) as [[a | e] w1]; simpl in *; [done |].
  etransitivity; [exact Hm | apply Hh].
Qed.
End Frames.

#[export] Instance same_network_preorder : PreOrder same_network.
Proof.
  split; [by intros w | intros w1 w2 w3 [H1 H2] [H3 H4]].
  split; congruence.
Qed.

#[export] Instance same_kv_preorder : PreOrder same_kv.
Proof.
  split; [by intros w | intros w1 w2 w3 [H1 H2] [H3 H4]].
  split; congruence.
Qed.

(** ** The platform services, step by step *)

Lemma Date_now_run w :
  Date_now w =
  (Ret (hd 0 (clock w)),
   mkWorld (tail (clock w)) (network w) (calls w) (kv_data w) (kv_faults w) (console w)).
Proof. destruct w as [[| t c] n cs d f con]; reflexivity. Qed.

Lemma kv_op_run {A} (run : gmap string string -> A * gmap string string) w :
  no_fault (kv_faults w) ->
  kv_op run w =
  (Ret (fst (run (kv_data w))),
   mkWorld (clock w) (network w) (calls w) (snd (run (kv_data w)))
           (tail (kv_faults w)) (console w)).
Proof.
  unfold kv_op. destruct (kv_faults w) as [| [e |] plan]; simpl; try done;
    destruct (run (kv_data w)); reflexivity.
Qed.

Lemma kv_op_fault {A} (run : gmap string string -> A * gmap string string) w e plan :
  kv_faults w = Some e :: plan ->
  kv_op run w =
  (Throw e, mkWorld (clock w) (network w) (calls w) (kv_data w) plan (console w)).
Proof. unfold kv_op. intros ->. reflexivity. Qed.

Lemma Date_now_network : keeps same_network Date_now.
Proof. intros w. rewrite Date_now_run. by split. Qed.

Lemma Date_now_kv : keeps same_kv Date_now.
Proof. intros w. rewrite Date_now_run. by split. Qed.

Lemma kv_op_network {A} (run : gmap string string -> A * gmap string string) :
  keeps same_network (kv_op run).
Proof.
  intros w. unfold kv_op.
  destruct (kv_faults w) as [| [e |] plan]; try destruct (run (kv_data w)); by split.
Qed.

Lemma console_error_network label e : keeps same_network (console_error label e).
Proof. intros w. by split. Qed.

Lemma console_error_kv label e : keeps same_kv (console_error label e).
Proof. intros w. by split. Qed.

Lemma fetch_kv url headers : keeps same_kv (fetch url headers).
Proof. intros w. unfold fetch. destruct (network w); by split. Qed.

(** Frame conditions are proved by following the structure of the code. *)
Ltac frame :=
  repeat first
    [ progress intros
    | apply keeps_ret | apply keeps_throw | apply keeps_lift
    | apply Date_now_network | apply Date_now_kv
    | apply kv_op_network | apply fetch_kv
    | apply console_error_network | apply console_error_kv
    | apply keeps_bind | apply keeps_try_catch
    | apply _
    | match goal with
      | |- keeps _ (if ?b then _ else _) => destruct b
      | |- keeps _ (match ?x with _ => _ end) => destruct x
      end ].

Section WorkerFacts.
Context {P : Platform}.

Lemma saveLogs_total env newLogs status : total (saveLogs env newLogs status).
Proof. unfold saveLogs. destruct (LOG_KV env); simpl; auto with total. Qed.

Lemma check_api_total env timestamp logs : total (check_api env timestamp logs).
Proof. unfold check_api. auto with total. Qed.

Lemma ping_app_total env timestamp logs : total (ping_app env timestamp logs).
Proof. unfold ping_app. destruct (truthy_str _); auto with total. Qed.

Lemma keepAlive_total env source : total (keepAlive env source).
Proof.
  unfold keepAlive, new_Date_toISOString.
  apply total_bind; [auto with total |]. intros timestamp.
  destruct (negb _).
  - apply total_bind; [apply saveLogs_total | auto with total].
  - apply total_bind; [apply check_api_total |]. intros [success1 logs1].
    apply total_bind; [apply ping_app_total |]. intros logs2.
    apply total_bind; [apply saveLogs_total | auto with total].
Qed.

Lemma saveLogs_network env newLogs status :
  keeps same_network (saveLogs env newLogs status).
Proof. unfold saveLogs, new_Date_toISOString, parse, unshift, kv_get, kv_put. frame. Qed.

Lemma check_api_kv env timestamp logs : keeps same_kv (check_api env timestamp logs).
Proof. unfold check_api. frame. Qed.

Lemma ping_app_kv env timestamp logs : keeps same_kv (ping_app env timestamp logs).
Proof. unfold ping_app. frame. Qed.

End WorkerFacts.

Section History.
Context {P : Platform}.

#[local] Arguments limit : simpl never.
#[local] Arguments take : simpl never.

(** The record of an append, as it is stored. *)
Lemma limit_take entry old :
  limit (JArr (entry :: old)) = JArr (take LOG_LIMIT (entry :: old)).
Proof.
  unfold limit. destruct (Nat.ltb_spec LOG_LIMIT (length (entry :: old))); [done |].
  by rewrite take_ge.
Qed.

(** What [saveLogs] and [handleGetLogs] make of the text under [history]. *)
Lemma read_history (text : option string) (old : list JsValue) :
  stored_history text = Some old ->
  (if truthy_str text then parse (default "" text) else ret (JArr [])) = ret (JArr old).
Proof.
  unfold stored_history, truthy_str, parse.
  destruct text as [s |]; simpl; [| congruence].
  destruct (String.eqb s ""); simpl; [congruence |].
  destruct (JSON_parse s) as [e | []]; congruence.
Qed.

(** An append on a namespace that answers and holds a readable
    history: the new record goes first, the list is cut to the limit,
    and the time of the run is written under [last_run]. *)
Lemma saveLogs_appends env newLogs status w old :
  LOG_KV env = true ->
  calm 3 (kv_faults w) ->
  stored_history (kv_data w !! "history") = Some old ->
  saveLogs env newLogs status w =
  (Ret tt,
   mkWorld (tail (tail (clock w))) (network w) (calls w)
     (<["last_run" := toISOString (hd 0 (tail (clock w)))]>
        (<["history" := JSON_stringify (JArr (take LOG_LIMIT
             (logEntry (toISOString (hd 0 (clock w))) status newLogs :: old)))]>
           (kv_data w)))
     (tail (tail (tail (kv_faults w)))) (console w)).
Proof.
  intros HKV (F1 & F2 & F3 & _) Hold.
  unfold saveLogs. rewrite HKV. simpl.
  unfold try_catch, bind, kv_get, kv_put, new_Date_toISOString, bind.
  rewrite kv_op_run by done. simpl.
  rewrite (read_history _ _ Hold). unfold ret, unshift. simpl.
  rewrite Date_now_run. simpl.
  rewrite kv_op_run by done. simpl.
  rewrite Date_now_run. simpl.
  rewrite kv_op_run by done. simpl.
  rewrite limit_take. reflexivity.
Qed.

(** The record is stored as soon as the read and the write of [history]
    go through, whatever becomes of the write of [last_run]. *)
Lemma saveLogs_writes env newLogs status w old :
  LOG_KV env = true ->
  calm 2 (kv_faults w) ->
  stored_history (kv_data w !! "history") = Some old ->
  exists w',
    saveLogs env newLogs status w = (Ret tt, w') /\
    kv_data w' !! "history" =
    Some (JSON_stringify (JArr (take LOG_LIMIT
            (logEntry (toISOString (hd 0 (clock w))) status newLogs :: old)))).
Proof.
  intros HKV (F1 & F2 & _) Hold.
  destruct (tail (tail (kv_faults w))) as [| [e |] plan] eqn:F3.
  - rewrite (saveLogs_appends env newLogs status w old)
      by (repeat split; try done; rewrite F3; exact I).
    eexists. split; [reflexivity |]. simpl.
    rewrite lookup_insert_ne by done. by rewrite lookup_insert_eq.
  - unfold saveLogs. rewrite HKV. simpl.
    unfold try_catch, bind, kv_get, kv_put, new_Date_toISOString, bind.
    rewrite kv_op_run by done. simpl.
    rewrite (read_history _ _ Hold). unfold ret, unshift. simpl.
    rewrite Date_now_run. simpl.
    rewrite kv_op_run by done. simpl.
    rewrite Date_now_run. simpl.
    rewrite (kv_op_fault _ _ e plan) by done. simpl.
    eexists. split; [reflexivity |]. simpl.
    rewrite limit_take. by rewrite lookup_insert_eq.
  - rewrite (saveLogs_appends env newLogs status w old)
      by (repeat split; try done; rewrite F3; exact I).
    eexists. split; [reflexivity |]. simpl.
    rewrite lookup_insert_ne by done. by rewrite lookup_insert_eq.
Qed.

Lemma handleGetLogs_lists env w old :
  LOG_KV env = true ->
  no_fault (kv_faults w) ->
  stored_history (kv_data w !! "history") = Some old ->
  handleGetLogs env w =
  (Ret (mkReply (JSON_stringify (JArr old)) "application/json"),
   mkWorld (clock w) (network w) (calls w) (kv_data w) (tail (kv_faults w)) (console w)).
Proof.
  intros HKV F Hold. unfold handleGetLogs. rewrite HKV.
  unfold bind, try_catch, kv_get, bind.
  rewrite kv_op_run by done. simpl.
  rewrite (read_history _ _ Hold). reflexivity.
Qed.

End History.

Lemma never_faults_calm n plan : never_faults plan -> calm n plan.
Proof.
  revert plan. induction n as [| n IH]; intros plan H; [done |].
  destruct H as [| f plan Hf H]; subst; simpl.
  - split; [done | apply IH; constructor].
  - split; [done | by apply IH].
Qed.

Lemma never_faults_tail plan : never_faults plan -> never_faults (tail plan).
Proof. intros [| f plan' Hf H]; [constructor | exact H]. Qed.

Lemma take_app_take {A} n (l k : list A) : take n (l ++ take n k) = take n (l ++ k).
Proof.
  rewrite !take_app, take_take. f_equal. f_equal. lia.
Qed.

Section Appends.
Context {P : Platform} {L : JsonLaws P}.

Lemma stored_stringify l : stored_history (Some (JSON_stringify (JArr l))) = Some l.
Proof.
  unfold stored_history.
  destruct (String.eqb_spec (JSON_stringify (JArr l)) "") as [E | _].
  - by apply stringify_nonempty in E.
  - by rewrite parse_stringify.
Qed.

(** A run of appends on a namespace that never throws, from a stored
    history [old]: all of them land, newest first, cut to the limit. *)
Lemma append_all_from env runs : forall w old,
  LOG_KV env = true ->
  never_faults (kv_faults w) ->
  stored_history (kv_data w !! "history") = Some old ->
  (length old <= LOG_LIMIT)%nat ->
  exists w',
    append_all env runs w = (Ret tt, w') /\
    never_faults (kv_faults w') /\
    stored_history (kv_data w' !! "history") =
      Some (take LOG_LIMIT
              (rev (entries (append_times (clock w) (length runs)) runs) ++ old)).
Proof.
  induction runs as [| [newLogs status] runs IH]; intros w old HKV Hf Hold Hlen.
  - exists w. simpl. rewrite take_ge by done. done.
  - simpl append_all. unfold bind.
    rewrite (saveLogs_appends env newLogs status w old)
      by auto using never_faults_calm.
    set (e := logEntry _ status newLogs).
    match goal with |- context [append_all env runs ?w1] => set (w1' := w1) end.
    destruct (IH w1' (take LOG_LIMIT (e :: old))) as (w' & Hrun & Hf' & Hst).
    + done.
    + subst w1'. simpl. auto using never_faults_tail.
    + subst w1'. simpl. rewrite lookup_insert_ne by done.
      rewrite lookup_insert_eq. apply stored_stringify.
    + rewrite length_take. lia.
    + exists w'. split; [done |]. split; [done |].
      rewrite Hst. f_equal. rewrite take_app_take.
      unfold entries. cbn [length append_times zip_with rev fst snd].
      by rewrite <- app_assoc.
Qed.

Lemma append_times_length readings n : length (append_times readings n) = n.
Proof. revert readings. induction n as [| n IH]; intros readings; simpl; [done | by rewrite IH]. Qed.

End Appends.

(** ** The reference codec obeys the JSON laws *)

Lemma JsValue_nested_ind (Q : JsValue -> Prop) :
  Q JNull -> (forall b, Q (JBool b)) -> (forall n, Q (JNum n)) -> (forall s, Q (JStr s)) ->
  (forall elems, Forall Q elems -> Q (JArr elems)) ->
  (forall props, Forall (fun p => Q (snd p)) props -> Q (JObj props)) ->
  forall v, Q v.
Proof.
  intros HNull HBool HNum HStr HArr HObj.
  fix self 1. intros [| b | n | s | elems | props].
  - exact HNull.
  - apply HBool.
  - apply HNum.
  - apply HStr.
  - apply HArr. induction elems as [| e es IH]; constructor; [apply self | exact IH].
  - apply HObj. induction props as [| [key e] ps IH]; constructor; [apply self | exact IH].
Qed.

Lemma delimited_no_digit k : delimited k -> no_digit k.
Proof. destruct k as [| c r]; [done |]. intros [-> | [-> | ->]]; reflexivity. Qed.

Lemma read_uint_stop k : no_digit k -> read_uint k = (Decimal.Nil, k).
Proof. destruct k as [| c r]; [done |]. simpl. by intros ->. Qed.

Lemma read_write_uint d k : no_digit k -> read_uint (write_uint d k) = (d, k).
Proof.
  intros Hk. induction d as [| d IH | d IH | d IH | d IH | d IH | d IH | d IH | d IH | d IH | d IH];
    [by apply read_uint_stop | ..]; simpl; by rewrite IH.
Qed.

Lemma read_write_char c K t k :
  read_chars K = Some (t, k) -> read_chars (write_char c K) = Some (String c t, k).
Proof.
  intros H.
  destruct c as [[] [] [] [] [] [] [] []];
    match goal with
    | |- read_chars ?x = _ => let y := eval cbv in x in change x with y
    end; simpl; rewrite H; reflexivity.
Qed.

Lemma read_write_chars s k : read_chars (write_chars s (String "034" k)) = Some (s, k).
Proof.
  induction s as [| c r IH]; [reflexivity |].
  simpl. by apply read_write_char.
Qed.

Lemma to_int_digits n :
  (exists u, Z.to_int n = Decimal.Pos u /\ u <> Decimal.Nil) \/
  (exists u, Z.to_int n = Decimal.Neg u /\ u <> Decimal.Nil).
Proof.
  destruct n as [| p | p]; simpl.
  - left. exists (Decimal.D0 Decimal.Nil). done.
  - left. exists (Pos.to_uint p). split; [done | apply Unsigned.to_uint_nonnil].
  - right. exists (Pos.to_uint p). split; [done | apply Unsigned.to_uint_nonnil].
Qed.

Lemma write_uint_head u k :
  u <> Decimal.Nil ->
  exists c r, write_uint u k = String c r /\ value_start c = true /\ c <> "-"%char.
Proof. destruct u; [done | ..]; intros _; simpl; eauto. Qed.

Lemma write_head v k : exists c r, write v k = String c r /\ value_start c = true.
Proof.
  destruct v as [| [] | n | s | [| e es] | [| [key e] ps]]; simpl; eauto.
  unfold write_int.
  destruct (to_int_digits n) as [(u & -> & Hu) | (u & -> & Hu)]; [| eauto].
  destruct (write_uint_head u k Hu) as (c & r & -> & Hc & _). eauto.
Qed.

Lemma open_array c r f :
  value_start c = true ->
  parse_value (S f) (String "[" (String c r)) =
  match parse_elems f (String c r) with
  | Some (l, r') => Some (JArr l, r')
  | None => None
  end.
Proof.
  intros H. destruct c as [[] [] [] [] [] [] [] []]; try discriminate H; reflexivity.
Qed.

Lemma parse_elems_S f s :
  parse_elems (S f) s =
  match parse_value f s with
  | Some (v, r) =>
      match skip_ws r with
      | String "," r' =>
          match parse_elems f r' with
          | Some (l, r'') => Some (v :: l, r'')
          | None => None
          end
      | String "]" r' => Some ([v], r')
      | _ => None
      end
  | None => None
  end.
Proof. reflexivity. Qed.

Lemma parse_members_S f key K :
  parse_members (S f) (write_string key K) =
  match skip_ws K with
  | String ":" r2 =>
      match parse_value f r2 with
      | Some (v, r3) =>
          match skip_ws r3 with
          | String "," r4 =>
              match parse_members f r4 with
              | Some (l, r5) => Some ((key, v) :: l, r5)
              | None => None
              end
          | String "}" r4 => Some ([(key, v)], r4)
          | _ => None
          end
      | None => None
      end
  | _ => None
  end.
Proof.
  unfold write_string. cbn [parse_members skip_ws].
  change (N_of_ascii "034" =? 32)%N with false. cbn [orb].
  change (N_of_ascii "034" =? 9)%N with false.
  change (N_of_ascii "034" =? 10)%N with false.
  change (N_of_ascii "034" =? 13)%N with false. cbn [orb].
  by rewrite read_write_chars.
Qed.

Lemma parse_number n k f :
  delimited k -> parse_value (S f) (write_int n k) = Some (JNum n, k).
Proof.
  intros Hk%delimited_no_digit. unfold write_int.
  destruct (to_int_digits n) as [(u & E & Hu) | (u & E & Hu)]; rewrite E.
  - assert (Z.of_int (Decimal.Pos u) = n) as <- by (rewrite <- E; apply DecimalZ.of_to).
    destruct u; [done | ..]; simpl; rewrite (read_write_uint _ _ Hk); reflexivity.
  - assert (Z.of_int (Decimal.Neg u) = n) as <- by (rewrite <- E; apply DecimalZ.of_to).
    simpl. rewrite (read_write_uint _ _ Hk).
    destruct u; [done | ..]; reflexivity.
Qed.

Lemma parse_elems_write es :
  Forall reads_back es ->
  forall e k f,
    reads_back e ->
    (S (size e + fold_right (fun e n => S (size e + n)) O es) <= f)%nat ->
    parse_elems f
      (write e (fold_right (fun e acc => String "," (write e acc)) (String "]" k) es)) =
    Some (e :: es, k).
Proof.
  induction 1 as [| e' es He' Hes IH]; intros e k f He Hf;
    (destruct f as [| f]; [lia |]); rewrite parse_elems_S.
  - rewrite He by (simpl in *; auto; lia). reflexivity.
  - cbn [fold_right] in *.
    rewrite He by (simpl; auto; lia).
    cbn [skip_ws]. change (N_of_ascii "," =? 32)%N with false.
    change (N_of_ascii "," =? 9)%N with false.
    change (N_of_ascii "," =? 10)%N with false.
    change (N_of_ascii "," =? 13)%N with false. cbn [orb].
    rewrite IH by (auto; lia). reflexivity.
Qed.

Lemma parse_members_write ps :
  Forall (fun p => reads_back (snd p)) ps ->
  forall key e k f,
    reads_back e ->
    (S (size e + fold_right (fun p n => S (size (snd p) + n)) O ps) <= f)%nat ->
    parse_members f
      (write_string key (String ":" (write e
         (fold_right
            (fun p acc => String "," (write_string (fst p) (String ":" (write (snd p) acc))))
            (String "}" k) ps)))) =
    Some ((key, e) :: ps, k).
Proof.
  induction 1 as [| [key' e'] ps He' Hps IH]; intros key e k f He Hf;
    (destruct f as [| f]; [lia |]); rewrite parse_members_S;
    cbn [skip_ws]; change (N_of_ascii ":" =? 32)%N with false;
    change (N_of_ascii ":" =? 9)%N with false;
    change (N_of_ascii ":" =? 10)%N with false;
    change (N_of_ascii ":" =? 13)%N with false; cbn [orb].
  - rewrite He by (simpl in *; auto; lia). reflexivity.
  - cbn [fold_right fst snd] in *.
    rewrite He by (simpl; auto; lia).
    cbn [skip_ws]. change (N_of_ascii "," =? 32)%N with false.
    change (N_of_ascii "," =? 9)%N with false.
    change (N_of_ascii "," =? 10)%N with false.
    change (N_of_ascii "," =? 13)%N with false. cbn [orb].
    rewrite IH by (auto; lia). reflexivity.
Qed.

Lemma parse_value_write v : reads_back v.
Proof.
  induction v as [| b | n | s | elems IH | props IH] using JsValue_nested_ind;
    intros k f Hk Hf; (destruct f as [| f]; [simpl in Hf; lia |]).
  - reflexivity.
  - destruct b; reflexivity.
  - by apply parse_number.
  - simpl. by rewrite read_write_chars.
  - destruct IH as [| e es He Hes]; [reflexivity |].
    cbn [write].
    match goal with |- context [write e ?K] =>
      destruct (write_head e K) as (c & r & E & Hc) end.
    rewrite E, (open_array _ _ _ Hc), <- E.
    rewrite parse_elems_write; [done.. |]. simpl in Hf. lia.
  - destruct IH as [| [key e] ps He Hps]; [reflexivity |].
    cbn [write].
    change (parse_value (S f) (String "{" ?s)) with
      (match parse_members f s with
       | Some (l, r') => Some (JObj l, r')
       | None => None
       end).
    rewrite parse_members_write; [done.. |]. simpl in Hf. lia.
Qed.

Lemma write_uint_length u k : (String.length k <= String.length (write_uint u k))%nat.
Proof. induction u; simpl; lia. Qed.

Lemma write_int_length n k : (S (String.length k) <= String.length (write_int n k))%nat.
Proof.
  unfold write_int.
  destruct (to_int_digits n) as [(u & -> & Hu) | (u & -> & Hu)].
  - destruct u; [done | ..]; simpl; pose proof (write_uint_length u k); lia.
  - simpl. pose proof (write_uint_length u k). lia.
Qed.

Lemma write_char_length c k : (S (String.length k) <= String.length (write_char c k))%nat.
Proof.
  unfold write_char.
  repeat match goal with |- context [if ?b then _ else _] => destruct b end; simpl; lia.
Qed.

Lemma write_chars_length s k : (String.length k <= String.length (write_chars s k))%nat.
Proof.
  induction s as [| c r IH]; simpl; [lia |].
  pose proof (write_char_length c (write_chars r k)). lia.
Qed.

Lemma write_string_length s k : (2 + String.length k <= String.length (write_string s k))%nat.
Proof.
  unfold write_string. simpl.
  pose proof (write_chars_length s (String "034" k)). simpl in *. lia.
Qed.

#[local] Arguments write_string : simpl never.

(** The text of a value has at least one character per node. *)
Lemma write_length v : forall k, (size v + String.length k <= String.length (write v k))%nat.
Proof.
  induction v as [| b | n | s | elems IH | props IH] using JsValue_nested_ind; intros k.
  - unfold write, String.append. simpl. lia.
  - destruct b; unfold write, String.append; simpl; lia.
  - apply write_int_length.
  - pose proof (write_string_length s k). simpl in *. lia.
  - destruct IH as [| e es He Hes]; [unfold write, String.append; simpl; lia |].
    cbn [write size fold_right String.length].
    match goal with |- context [write e ?K] => specialize (He K); set (K' := K) in * end.
    assert (fold_right (fun e n => S (size e + n)) O es + S (String.length k)
            <= String.length K')%nat; [| lia].
    subst K'. clear He. induction Hes as [| e' es' He' Hes' IH']; simpl; [lia |].
    match goal with |- context [write e' ?K] => specialize (He' K) end. lia.
  - destruct IH as [| [key e] ps He Hps]; [unfold write, String.append; simpl; lia |].
    cbn [write size fold_right String.length fst snd].
    match goal with |- context [write e ?K] => specialize (He K); set (K' := K) in * end.
    pose proof (write_string_length key (String ":" (write e K'))) as Hkey.
    cbn [String.length] in Hkey.
    assert (fold_right (fun p n => S (size (snd p) + n)) O ps + S (String.length k)
            <= String.length K')%nat; [| cbn [snd] in He; lia].
    subst K'. clear He Hkey. induction Hps as [| [key' e'] ps' He' Hps' IH']; simpl; [lia |].
    match goal with |- context [write e' ?K] => specialize (He' K);
      pose proof (write_string_length key' (String ":" (write e' K))) as Hkey end.
    simpl in *. lia.
Qed.

Lemma size_positive v : (1 <= size v)%nat.
Proof. destruct v; simpl; lia. Qed.

#[export] Instance reference_laws : JsonLaws reference.
Proof.
  split; intros v; simpl; unfold stringify.
  - unfold parse_text.
    rewrite (parse_value_write v "" _ I); [reflexivity |].
    pose proof (write_length v ""). simpl in *. lia.
  - pose proof (write_length v ""). pose proof (size_positive v).
    intros E. rewrite E in *. simpl in *. lia.
Qed.

(** ** The steps of a run *)

Section Steps.
Context {P : Platform}.

(** Step 2 adds one message, touches no key of the namespace, and
    never throws. *)
Lemma check_api_appends env timestamp logs w :
  exists flag m w',
    check_api env timestamp logs w = (Ret (flag, logs ++ [m]), w') /\ same_kv w w'.
Proof.
  pose proof (check_api_kv env timestamp logs w) as Hkv.
  revert Hkv. unfold check_api, try_catch, bind.
  rewrite Date_now_run. simpl.
  destruct (fetch _ _ _) as [[response | e] w1]; [| intros; simpl; eauto].
  rewrite (Date_now_run w1). simpl.
  destruct (ok response); [| intros; simpl; eauto].
  unfold lift.
  destruct (json response) as [data | e]; [| intros; simpl; eauto].
  destruct (user_email data) as [email | e]; intros; simpl; eauto.
Qed.

(** Step 2 when the primary endpoint fails. *)
Lemma check_api_fails env timestamp logs w :
  primary_fails (network w) ->
  exists m w', check_api env timestamp logs w = (Ret (false, logs ++ [m]), w').
Proof.
  unfold check_api, try_catch, bind, primary_fails.
  rewrite Date_now_run. unfold fetch. simpl.
  destruct (network w) as [| [response | e] rest]; intros H; simpl; eauto.
  rewrite Date_now_run. simpl. rewrite H. eauto.
Qed.

(** Step 2 when the primary endpoint answers 2xx with a usable body. *)
Lemma check_api_succeeds env timestamp logs w response rest data email :
  network w = Ret response :: rest ->
  ok response = true ->
  json response = Ret data ->
  user_email data = Ret email ->
  exists m w',
    check_api env timestamp logs w = (Ret (true, logs ++ [m]), w') /\
    network w' = rest.
Proof.
  intros Hnet Hok Hjson Hemail.
  unfold check_api, try_catch, bind.
  rewrite Date_now_run. unfold fetch. simpl. rewrite Hnet. simpl.
  rewrite Date_now_run. simpl.
  rewrite Hok. unfold lift. rewrite Hjson, Hemail. simpl. eauto.
Qed.

(** Step 3 only adds messages, touches no key of the namespace, and
    never throws. *)
Lemma ping_app_appends env timestamp logs w :
  exists more w',
    ping_app env timestamp logs w = (Ret (logs ++ more), w') /\ same_kv w w'.
Proof.
  pose proof (ping_app_kv env timestamp logs w) as Hkv.
  revert Hkv. unfold ping_app.
  destruct (truthy_str _).
  - unfold try_catch, bind. rewrite Date_now_run. simpl.
    destruct (fetch _ _ _) as [[res | e] w1]; [| intros; simpl; eauto].
    rewrite (Date_now_run w1). simpl. eauto.
  - intros. exists [], w. by rewrite app_nil_r.
Qed.

(** Step 3 when the ping throws: the failure is the last message. *)
Lemma ping_app_fails env timestamp logs w e :
  truthy_str (KOYEB_APP_URL env) = true ->
  hd (Throw (TypeError "fetch failed")) (network w) = Throw e ->
  exists w',
    ping_app env timestamp logs w =
    (Ret (logs ++ ["[" +:+ timestamp +:+ "] ⚠️ App Ping 失败: " +:+ message e]), w').
Proof.
  intros Hurl He. unfold ping_app. rewrite Hurl. unfold try_catch, bind.
  rewrite Date_now_run. unfold fetch. simpl.
  destruct (network w) as [| r rest]; simpl in *.
  - injection He as <-. eauto.
  - subst r. simpl. eauto.
Qed.

End Steps.

(** ** A run and its record *)

Section Runs.
Context {P : Platform}.

(** Every run ends by handing its messages and its flag to [saveLogs],
    on a namespace it has not touched before, and returns them. *)
Lemma keepAlive_saves env source w :
  exists r w1,
    same_kv w w1 /\
    head (logs r) = Some (start_message (toISOString (hd 0 (clock w))) source) /\
    keepAlive env source w =
    bind (saveLogs env (logs r) (success r)) (fun _ => ret r) w1.
Proof.
  unfold keepAlive, new_Date_toISOString.
  unfold bind at 1 2. rewrite Date_now_run. unfold ret at 1.
  set (timestamp := toISOString (hd 0 (clock w))).
  set (w0 := mkWorld _ _ _ _ _ _).
  destruct (negb _).
  - exists (mkResult false [start_message timestamp source; missing_token_message timestamp]), w0.
    by repeat split.
  - destruct (check_api_appends env timestamp [start_message timestamp source] w0)
      as (flag & m & w1 & E1 & Hkv1).
    destruct (ping_app_appends env timestamp ([start_message timestamp source] ++ [m]) w1)
      as (more & w2 & E2 & Hkv2).
    exists (mkResult flag (([start_message timestamp source] ++ [m]) ++ more)), w2.
    split; [| split; [done |]].
    + transitivity w1; [| done]. transitivity w0; [by split | done].
    + unfold bind at 1. rewrite E1. unfold bind at 1. rewrite E2. reflexivity.
Qed.

(** The record a run leaves in a namespace that answers and holds a
    readable history: the flag and the messages are those returned. *)
Lemma keepAlive_persists env source w old r w' :
  LOG_KV env = true ->
  calm 2 (kv_faults w) ->
  stored_history (kv_data w !! "history") = Some old ->
  keepAlive env source w = (Ret r, w') ->
  exists time,
    kv_data w' !! "history" =
    Some (JSON_stringify (JArr (take LOG_LIMIT (logEntry time (success r) (logs r) :: old)))).
Proof.
  intros HKV Hcalm Hold Hrun.
  destruct (keepAlive_saves env source w) as (r1 & w1 & [Hd Hf] & _ & E).
  rewrite E in Hrun. unfold bind in Hrun.
  destruct (saveLogs_writes env (logs r1) (success r1) w1 old) as (w2 & Hsave & Hst);
    [done | by rewrite Hf | by rewrite Hd |].
  rewrite Hsave in Hrun. injection Hrun as -> <-. eauto.
Qed.

End Runs.

(** ** The claims *)

(** C1. After any run of N appends on a bound namespace that never throws
    and holds no history, [handleGetLogs] returns the array of the
    records newest first, cut to [LOG_LIMIT] = 20: its length is
    min(N, 20), and the records dropped are the oldest. *)
Theorem history_newest_first_bounded (P : Platform) (L : JsonLaws P) env runs w :
  LOG_KV env = true ->
  never_faults (kv_faults w) ->
  kv_data w !! "history" = None ->
  let records := entries (append_times (clock w) (length runs)) runs in
  exists w',
    bind (append_all env runs) (fun _ => handleGetLogs env) w =
      (Ret (mkReply (JSON_stringify (JArr (take LOG_LIMIT (rev records)))) "application/json"),
       w') /\
    length (take LOG_LIMIT (rev records)) = Nat.min (length runs) LOG_LIMIT /\
    LOG_LIMIT = 20%nat.
Proof.
  intros HKV Hf Hnone records.
  destruct (append_all_from env runs w []) as (w1 & Hrun & Hf1 & Hst);
    [done | done | by rewrite Hnone | simpl; lia |].
  rewrite app_nil_r in Hst. fold records in Hst.
  eexists. split; [| split; [| done]].
  - unfold bind. rewrite Hrun.
    apply handleGetLogs_lists; [done | | done].
    by apply (never_faults_calm 1).
  - rewrite length_take, length_rev. unfold records, entries.
    rewrite length_zip_with, append_times_length. lia.
Qed.

Lemma history_newest_first_bounded_witness :
  let records := entries (append_times (clock world_idle) (length three_runs)) three_runs in
  exists w',
    bind (append_all env_full three_runs) (fun _ => handleGetLogs env_full) world_idle =
      (Ret (mkReply (JSON_stringify (JArr (take LOG_LIMIT (rev records)))) "application/json"),
       w') /\
    length (take LOG_LIMIT (rev records)) = Nat.min (length three_runs) LOG_LIMIT /\
    LOG_LIMIT = 20%nat.
Proof.
  apply (history_newest_first_bounded reference reference_laws env_full three_runs world_idle);
    [reflexivity | constructor | reflexivity].
Defined.

(** C2, as stated, fails: without a token the run returns two messages,
    the start banner and the failure, not one. *)
Lemma missing_token_single_message_counterexample :
  ~ exists m w',
      keepAlive (P := reference) env_no_token "Manual" world_idle =
      (Ret (mkResult false [m]), w').
Proof. intros (m & w' & H). vm_compute in H. discriminate H. Qed.

(** C2, amended. Without a token (absent or empty) the run returns
    success = false with exactly two messages, the start banner and the
    missing-token failure, and issues no network call. *)
Theorem missing_token_fails_offline (P : Platform) env source w :
  truthy_str (KOYEB_TOKEN env) = false ->
  exists w',
    keepAlive env source w =
      (Ret (mkResult false
              [start_message (toISOString (hd 0 (clock w))) source;
               missing_token_message (toISOString (hd 0 (clock w)))]), w') /\
    same_network w w'.
Proof.
  intros Htoken. unfold keepAlive, new_Date_toISOString.
  unfold bind at 1 2. rewrite Date_now_run. unfold ret at 1.
  rewrite Htoken. cbn [negb].
  set (w0 := mkWorld _ _ _ _ _ _).
  pose proof (saveLogs_network env
    ([start_message (toISOString (hd 0 (clock w))) source] ++
     [missing_token_message (toISOString (hd 0 (clock w)))]) false w0) as Hnet.
  unfold bind.
  destruct (saveLogs_total env
    ([start_message (toISOString (hd 0 (clock w))) source] ++
     [missing_token_message (toISOString (hd 0 (clock w)))]) false w0) as ([] & w1 & E).
  rewrite E in *. exists w1. split; [reflexivity |].
  transitivity w0; [by split | exact Hnet].
Qed.

Lemma missing_token_fails_offline_witness :
  exists w',
    keepAlive (P := reference) env_no_token "Manual" world_idle =
      (Ret (mkResult false
              [start_message (toISOString (hd 0 (clock world_idle))) "Manual";
               missing_token_message (toISOString (hd 0 (clock world_idle)))]), w') /\
    same_network world_idle w'.
Proof.
  apply (missing_token_fails_offline reference env_no_token "Manual" world_idle).
  reflexivity.
Defined.

(** C3, as stated, fails: the reply to [/api/trigger] is not that of a
    run labelled "manual" (nor "Manual", the default of [keepAlive]). *)
Lemma trigger_source_manual_counterexample :
  fetch_handler (P := reference) page0 "/api/trigger" env_full world_up <>
    bind (keepAlive env_full "manual")
         (fun r => ret (mkReply (JSON_stringify (result_value r)) "application/json")) world_up /\
  fetch_handler (P := reference) page0 "/api/trigger" env_full world_up <>
    bind (keepAlive env_full "Manual")
         (fun r => ret (mkReply (JSON_stringify (result_value r)) "application/json")) world_up.
Proof. split; intros H; vm_compute in H; discriminate H. Qed.

(** C3, amended. A request to [/api/trigger] runs [keepAlive] with the
    source "Web Dashboard" and replies with the JSON of its result
    [{ success, logs }]; the run's first message carries that source, and
    on a bound namespace that answers and holds a readable history the
    run's record is stored at the head of the history. *)
Theorem trigger_runs_web_dashboard (P : Platform) dashboard env w :
  exists r w',
    keepAlive env "Web Dashboard" w = (Ret r, w') /\
    fetch_handler dashboard "/api/trigger" env w =
      (Ret (mkReply (JSON_stringify (result_value r)) "application/json"), w') /\
    head (logs r) =
      Some (start_message (toISOString (hd 0 (clock w))) "Web Dashboard") /\
    forall old,
      LOG_KV env = true ->
      calm 2 (kv_faults w) ->
      stored_history (kv_data w !! "history") = Some old ->
      exists time,
        kv_data w' !! "history" =
        Some (JSON_stringify
                (JArr (take LOG_LIMIT (logEntry time (success r) (logs r) :: old)))).
Proof.
  destruct (keepAlive_total env "Web Dashboard" w) as (r & w' & Hrun).
  exists r, w'. split; [done |]. split; [| split].
  - unfold fetch_handler. simpl. unfold handleTrigger, bind. by rewrite Hrun.
  - destruct (keepAlive_saves env "Web Dashboard" w) as (r1 & w1 & _ & Hhead & E).
    rewrite E in Hrun. unfold bind in Hrun.
    destruct (saveLogs env (logs r1) (success r1) w1) as [[[] | e] w2]; [| done].
    by injection Hrun as -> _.
  - intros old HKV Hcalm Hold. by eapply keepAlive_persists.
Qed.

Lemma trigger_runs_web_dashboard_witness :
  exists r w',
    keepAlive (P := reference) env_full "Web Dashboard" world_up = (Ret r, w') /\
    fetch_handler page0 "/api/trigger" env_full world_up =
      (Ret (mkReply (JSON_stringify (result_value r)) "application/json"), w') /\
    head (logs r) =
      Some (start_message (toISOString (hd 0 (clock world_up))) "Web Dashboard") /\
    exists time,
      kv_data w' !! "history" =
      Some (JSON_stringify
              (JArr (take LOG_LIMIT (logEntry time (success r) (logs r) :: [])))).
Proof.
  destruct (trigger_runs_web_dashboard reference page0 env_full world_up)
    as (r & w' & Hrun & Hreply & Hhead & Hstore).
  exists r, w'. repeat split; try assumption.
  apply Hstore; [reflexivity | simpl; tauto | reflexivity].
Defined.

(** C4. When the call to the primary endpoint throws or is answered
    outside 200..299, the run completes normally (nothing propagates) and
    returns success = false, whatever the application URL is and however
    its ping ends. *)
Theorem primary_failure_fails_run (P : Platform) env source w :
  primary_fails (network w) ->
  exists messages w', keepAlive env source w = (Ret (mkResult false messages), w').
Proof.
  intros Hfail. unfold keepAlive, new_Date_toISOString.
  unfold bind at 1 2. rewrite Date_now_run. unfold ret at 1.
  set (timestamp := toISOString (hd 0 (clock w))).
  set (w0 := mkWorld _ _ _ _ _ _).
  destruct (negb _).
  - unfold bind.
    destruct (saveLogs_total env
      ([start_message timestamp source] ++ [missing_token_message timestamp]) false w0)
      as ([] & w1 & ->). eauto.
  - destruct (check_api_fails env timestamp [start_message timestamp source] w0 Hfail)
      as (m & w1 & E1).
    unfold bind at 1. rewrite E1.
    destruct (ping_app_total env timestamp ([start_message timestamp source] ++ [m]) w1)
      as (messages & w2 & E2).
    unfold bind at 1. rewrite E2. unfold bind.
    destruct (saveLogs_total env messages false w2) as ([] & w3 & ->). eauto.
Qed.

Lemma primary_failure_fails_run_witness :
  exists messages w',
    keepAlive (P := reference) env_full "Cron Scheduled" world_down =
    (Ret (mkResult false messages), w').
Proof.
  apply (primary_failure_fails_run reference env_full "Cron Scheduled" world_down).
  reflexivity.
Defined.

(** C5. When the primary endpoint answers 2xx with a body the greeting
    can be built from, the run returns success = true whatever the ping
    of the application URL does; a ping that throws is recorded as the
    last message. *)
Theorem secondary_failure_is_advisory (P : Platform) env source w response rest data email :
  truthy_str (KOYEB_TOKEN env) = true ->
  network w = Ret response :: rest ->
  ok response = true ->
  json response = Ret data ->
  user_email data = Ret email ->
  exists messages w',
    keepAlive env source w = (Ret (mkResult true messages), w') /\
    forall e,
      truthy_str (KOYEB_APP_URL env) = true ->
      hd (Throw (TypeError "fetch failed")) rest = Throw e ->
      last messages =
      Some ("[" +:+ toISOString (hd 0 (clock w)) +:+ "] ⚠️ App Ping 失败: " +:+ message e).
Proof.
  intros Htoken Hnet Hok Hjson Hemail. unfold keepAlive, new_Date_toISOString.
  unfold bind at 1 2. rewrite Date_now_run. unfold ret at 1.
  set (timestamp := toISOString (hd 0 (clock w))).
  set (w0 := mkWorld _ _ _ _ _ _).
  rewrite Htoken. cbn [negb].
  destruct (check_api_succeeds env timestamp [start_message timestamp source] w0
              response rest data email Hnet Hok Hjson Hemail) as (m & w1 & E1 & Hrest).
  unfold bind at 1. rewrite E1.
  destruct (ping_app_total env timestamp ([start_message timestamp source] ++ [m]) w1)
    as (messages & w2 & E2).
  unfold bind at 1. rewrite E2. unfold bind.
  destruct (saveLogs_total env messages true w2) as ([] & w3 & ->).
  exists messages, w3. split; [reflexivity |].
  intros e Hurl He. rewrite <- Hrest in He.
  destruct (ping_app_fails env timestamp ([start_message timestamp source] ++ [m]) w1 e Hurl He)
    as (w2' & E2').
  rewrite E2' in E2. injection E2 as <- _. reflexivity.
Qed.

Lemma secondary_failure_is_advisory_witness :
  exists messages w',
    keepAlive (P := reference) env_full "Cron Scheduled" world_up =
      (Ret (mkResult true messages), w') /\
    last messages =
    Some ("[" +:+ toISOString (hd 0 (clock world_up)) +:+ "] ⚠️ App Ping 失败: "
              +:+ message connection_lost).
Proof.
  destruct (secondary_failure_is_advisory reference env_full "Cron Scheduled" world_up
              (mkResponse 200 "OK" (Ret (JObj [("user", JObj [("email", JStr "a@b.com")])])))
              [Throw connection_lost]
              (JObj [("user", JObj [("email", JStr "a@b.com")])]) "a@b.com")
    as (messages & w' & Hrun & Hlast); try reflexivity.
  exists messages, w'. split; [exact Hrun |].
  apply Hlast; reflexivity.
Defined.

(** C6, as stated, fails: when the write of [last_run] throws (the third
    operation of the call) the error is caught and logged, but the
    history has already been replaced; the call was not a no-op. *)
Lemma append_noop_on_fault_counterexample :
  exists w',
    saveLogs (P := reference) env_full ["run"] true world_put_fault = (Ret tt, w') /\
    console w' <> [] /\
    kv_data w' !! "history" <> kv_data world_put_fault !! "history".
Proof.
  eexists. split; [vm_compute; reflexivity |].
  split; vm_compute; intros H; discriminate H.
Qed.

(** C6, amended. [saveLogs] never throws; when the namespace is not
    bound the world is left as it was, and when the read of [history] or
    the write of [history] throws, the contents of the namespace are left
    as they were (a throw of the later write of [last_run] is caught as
    well, the history being already written). *)
Theorem append_degrades (P : Platform) env newLogs status w :
  exists w',
    saveLogs env newLogs status w = (Ret tt, w') /\
    (LOG_KV env = false -> w' = w) /\
    (store_unavailable env w -> kv_data w' = kv_data w).
Proof.
  destruct (saveLogs_total env newLogs status w) as ([] & w' & Hrun).
  exists w'. split; [done |]. split.
  - intros HKV. unfold saveLogs in Hrun. rewrite HKV in Hrun.
    by injection Hrun as <-.
  - revert Hrun. unfold store_unavailable, saveLogs.
    destruct (LOG_KV env); simpl; [| intros [= <-]; done].
    intros Hrun [[=] | Hfault].
    revert Hrun. unfold try_catch, bind, kv_get, kv_put, new_Date_toISOString, bind.
    destruct (kv_faults w) as [| [e |] plan] eqn:Hplan; [done | |].
    + rewrite (kv_op_fault _ w e plan) by done. simpl. by intros [= <-].
    + destruct plan as [| [e' |] plan]; try done.
      rewrite kv_op_run by (rewrite Hplan; exact I). simpl.
      destruct (if truthy_str _ then _ else _) as [[history | e] w1] eqn:Hread.
      * assert (w1 = mkWorld (clock w) (network w) (calls w) (kv_data w)
                             (tail (kv_faults w)) (console w)) as ->.
        { revert Hread. unfold parse, ret, throw.
          destruct (truthy_str _); [destruct (JSON_parse _) |]; by intros [= <-]. }
        rewrite Date_now_run. unfold ret. simpl.
        destruct history; simpl; try (by intros [= <-]).
        rewrite Hplan. simpl. by intros [= <-].
      * assert (w1 = mkWorld (clock w) (network w) (calls w) (kv_data w)
                             (tail (kv_faults w)) (console w)) as ->.
        { revert Hread. unfold parse, ret, throw.
          destruct (truthy_str _); [destruct (JSON_parse _) |]; by intros [= <-]. }
        simpl. by intros [= <-].
Qed.

Lemma append_degrades_witness :
  exists w',
    saveLogs (P := reference) env_full ["run"] true
      world_write_fault = (Ret tt, w') /\
    kv_data w' = ∅.
Proof.
  destruct (append_degrades reference env_full ["run"] true
              world_write_fault)
    as (w' & Hrun & _ & Hsame).
  exists w'. split; [exact Hrun |].
  apply Hsame. right. exact I.
Defined.

(** C7. [handleGetLogs] replies with the empty array, and does not throw,
    when no namespace is bound, when the read throws, when the [history]
    key is missing, or when the text under it does not parse. *)
Theorem list_defaults_to_empty (P : Platform) env w :
  history_unreadable env w ->
  exists w',
    handleGetLogs env w = (Ret (mkReply (JSON_stringify (JArr [])) "application/json"), w').
Proof.
  unfold handleGetLogs, history_unreadable.
  destruct (LOG_KV env); [| by eauto].
  intros [[=] | H]. unfold bind, try_catch, kv_get, bind.
  destruct (kv_faults w) as [| [e |] plan] eqn:Hplan.
  - rewrite kv_op_run by (rewrite Hplan; exact I). simpl.
    destruct H as [(e & plan & [=]) | [-> | (text & e & -> & Hparse)]]; simpl; [by eauto |].
    unfold parse. rewrite Hparse. destruct (negb _); simpl; eauto.
  - rewrite (kv_op_fault _ w e plan) by done. simpl. eauto.
  - rewrite kv_op_run by (rewrite Hplan; exact I). simpl.
    destruct H as [(e & plan' & [=]) | [-> | (text & e & -> & Hparse)]]; simpl; [by eauto |].
    unfold parse. rewrite Hparse. destruct (negb _); simpl; eauto.
Qed.

Lemma list_defaults_to_empty_witness :
  exists w',
    handleGetLogs (P := reference) env_full world_garbled =
    (Ret (mkReply (JSON_stringify (JArr [])) "application/json"), w').
Proof.
  apply (list_defaults_to_empty reference env_full world_garbled).
  right. right. right. exists "not json", (mkError "SyntaxError" "Unexpected token in JSON").
  split; reflexivity.
Defined.

(** C8, as stated, fails: on a namespace whose [history] key holds JSON
    that is not an array, the append is caught midway; the list that
    follows returns the old text, not an array headed by the record, and
    no [last_run] key is written. *)
Lemma append_then_list_counterexample :
  exists w',
    bind (saveLogs (P := reference) env_full ["run"] true)
         (fun _ => handleGetLogs env_full) world_object =
      (Ret (mkReply "{}" "application/json"), w') /\
    (forall time rest, JSON_stringify (JArr (logEntry time true ["run"] :: rest)) <> "{}") /\
    kv_data w' !! "last_run" = None.
Proof.
  eexists. split; [vm_compute; reflexivity |]. split.
  - intros time rest H. simpl in H. unfold stringify in H. simpl in H. discriminate H.
  - vm_compute. reflexivity.
Qed.

(** C8, amended. On a bound namespace that answers and whose [history]
    key is missing, empty or holds the JSON of an array, an append
    followed by a list returns an array headed by the new record; parsing
    the reply gives back the record with its [time], [status] and
    [messages] as they were built, followed by the 19 newest older
    records; and the append writes the time of the run under [last_run]. *)
Theorem append_then_list (P : Platform) (L : JsonLaws P) env newLogs status w old :
  LOG_KV env = true ->
  calm 4 (kv_faults w) ->
  stored_history (kv_data w !! "history") = Some old ->
  exists w',
    let record := logEntry (toISOString (hd 0 (clock w))) status newLogs in
    bind (saveLogs env newLogs status) (fun _ => handleGetLogs env) w =
      (Ret (mkReply (JSON_stringify (JArr (record :: take 19 old))) "application/json"), w') /\
    JSON_parse (JSON_stringify (JArr (record :: take 19 old))) = inr (JArr (record :: take 19 old)) /\
    kv_data w' !! "last_run" = Some (toISOString (hd 0 (tail (clock w)))).
Proof.
  intros HKV (F1 & F2 & F3 & F4 & _) Hold.
  eexists. cbv zeta. split; [| split; [apply parse_stringify |]].
  - unfold bind. rewrite (saveLogs_appends env newLogs status w old) by (simpl; auto).
    rewrite (handleGetLogs_lists env _
               (logEntry (toISOString (hd 0 (clock w))) status newLogs :: take 19 old)).
    + reflexivity.
    + done.
    + done.
    + simpl. rewrite lookup_insert_ne by done. rewrite lookup_insert_eq.
      apply stored_stringify.
  - simpl. by rewrite lookup_insert_eq.
Qed.

Lemma append_then_list_witness :
  exists w',
    let record := logEntry (toISOString (hd 0 (clock world_idle))) true ["run"] in
    bind (saveLogs (P := reference) env_full ["run"] true)
         (fun _ => handleGetLogs env_full) world_idle =
      (Ret (mkReply (JSON_stringify (JArr (record :: take 19 []))) "application/json"), w') /\
    JSON_parse (JSON_stringify (JArr (record :: take 19 []))) = inr (JArr (record :: take 19 [])) /\
    kv_data w' !! "last_run" = Some (toISOString (hd 0 (tail (clock world_idle)))).
Proof.
  apply (append_then_list reference reference_laws env_full ["run"] true world_idle []);
    [reflexivity | simpl; tauto | reflexivity].
Defined.

(** C9. On a bound namespace that answers and holds a readable history,
    the record a run stores at the head of the history has status
    "success" exactly when the run returns success = true and "error"
    otherwise, and its messages are the messages the run returns. *)
Theorem record_matches_result (P : Platform) env source w old :
  LOG_KV env = true ->
  calm 2 (kv_faults w) ->
  stored_history (kv_data w !! "history") = Some old ->
  exists r w' time,
    let record := logEntry time (success r) (logs r) in
    keepAlive env source w = (Ret r, w') /\
    kv_data w' !! "history" = Some (JSON_stringify (JArr (take LOG_LIMIT (record :: old)))) /\
    (get_prop record "status" = Ret (Some (JStr "success")) <-> success r = true) /\
    (get_prop record "status" = Ret (Some (JStr "error")) <-> success r = false) /\
    get_prop record "messages" = Ret (Some (JArr (map JStr (logs r)))).
Proof.
  intros HKV Hcalm Hold.
  destruct (keepAlive_total env source w) as (r & w' & Hrun).
  destruct (keepAlive_persists env source w old r w' HKV Hcalm Hold Hrun) as (time & Hst).
  exists r, w', time. cbv zeta.
  split; [done |]. split; [done |].
  unfold logEntry. simpl. destruct (success r); repeat split; congruence.
Qed.

Lemma record_matches_result_witness :
  exists r w' time,
    let record := logEntry time (success r) (logs r) in
    keepAlive (P := reference) env_full "Cron Scheduled" world_down = (Ret r, w') /\
    kv_data w' !! "history" = Some (JSON_stringify (JArr (take LOG_LIMIT (record :: [])))) /\
    (get_prop record "status" = Ret (Some (JStr "success")) <-> success r = true) /\
    (get_prop record "status" = Ret (Some (JStr "error")) <-> success r = false) /\
    get_prop record "messages" = Ret (Some (JArr (map JStr (logs r)))).
Proof.
  apply (record_matches_result reference env_full "Cron Scheduled" world_down []);
    [reflexivity | simpl; tauto | reflexivity].
Defined.

(** C10. Without a token, and with a namespace bound, the run still ends
    by calling [saveLogs] with status false before it returns; on a
    namespace that answers and holds a readable history, the record of
    the aborted run, with status "error" and the run's two messages, is
    stored at the head of the history. *)
Theorem missing_token_run_is_recorded (P : Platform) env source w :
  truthy_str (KOYEB_TOKEN env) = false ->
  LOG_KV env = true ->
  let timestamp := toISOString (hd 0 (clock w)) in
  let messages := [start_message timestamp source; missing_token_message timestamp] in
  keepAlive env source w =
    bind (saveLogs env messages false) (fun _ => ret (mkResult false messages))
         (snd (Date_now w)) /\
  forall old,
    calm 2 (kv_faults w) ->
    stored_history (kv_data w !! "history") = Some old ->
    exists w' time,
      keepAlive env source w = (Ret (mkResult false messages), w') /\
      kv_data w' !! "history" =
        Some (JSON_stringify (JArr (take LOG_LIMIT (logEntry time false messages :: old)))) /\
      get_prop (logEntry time false messages) "status" = Ret (Some (JStr "error")).
Proof.
  intros Htoken HKV timestamp messages.
  assert (keepAlive env source w =
          bind (saveLogs env messages false) (fun _ => ret (mkResult false messages))
               (snd (Date_now w))) as Hcall.
  { unfold keepAlive, new_Date_toISOString.
    unfold bind at 1 2. rewrite Date_now_run. unfold ret at 1.
    rewrite Htoken. reflexivity. }
  split; [exact Hcall |].
  intros old Hcalm Hold.
  assert (exists w', keepAlive env source w = (Ret (mkResult false messages), w'))
    as (w' & Hrun).
  { rewrite Hcall. unfold bind.
    destruct (saveLogs_total env messages false (snd (Date_now w))) as ([] & w' & ->).
    by exists w'. }
  destruct (keepAlive_persists env source w old _ w' HKV Hcalm Hold Hrun) as (time & Hst).
  exists w', time. split; [exact Hrun |]. split; [exact Hst | reflexivity].
Qed.

Lemma missing_token_run_is_recorded_witness :
  let timestamp := toISOString (hd 0 (clock world_idle)) in
  let messages := [start_message timestamp "Manual"; missing_token_message timestamp] in
  exists w' time,
    keepAlive (P := reference) env_no_token "Manual" world_idle =
      (Ret (mkResult false messages), w') /\
    kv_data w' !! "history" =
      Some (JSON_stringify (JArr (take LOG_LIMIT (logEntry time false messages :: [])))) /\
    get_prop (logEntry time false messages) "status" = Ret (Some (JStr "error")).
Proof.
  intros timestamp messages.
  destruct (missing_token_run_is_recorded reference env_no_token "Manual" world_idle)
    as [_ Hstore]; [reflexivity | reflexivity |].
  apply Hstore; [simpl; tauto | reflexivity].
Defined.

(** ** Concrete runs *)

(** Twenty-two appends leave twenty records: run 22 first, run 3 last. *)
Example twenty_two_appends :
  exists reply w' records,
    bind (append_all (P := reference) env_full runs22) (fun _ => handleGetLogs env_full)
         world_idle = (Ret reply, w') /\
    JSON_parse (body reply) = inr (JArr records) /\
    length records = 20%nat /\
    (fun v => get_prop v "messages") <$> head records = Some (Ret (Some (JArr [JStr "22"]))) /\
    (fun v => get_prop v "messages") <$> last records = Some (Ret (Some (JArr [JStr "3"]))).
Proof.
  eexists _, _, _. split; [vm_compute; reflexivity |].
  split; [vm_compute; reflexivity |]. repeat split.
Qed.

(** A 2xx answer whose body is [null] fails the run: reading [data.user]
    throws inside the [try]. *)
Example null_profile_fails :
  fst (keepAlive (P := reference) env_full "Manual"
         (mkWorld ticks [Ret (mkResponse 200 "OK" (Ret JNull))] [] ∅ [] [])) =
  Ret (mkResult false
    ["[2024-11-03T08:00:00.000Z] 🚀 任务开始 (来源: Manual)";
     "[2024-11-03T08:00:00.000Z] ❌ Koyeb API 请求异常: Cannot read properties of null (reading 'user')";
     "[2024-11-03T08:00:00.000Z] ⚠️ App Ping 失败: fetch failed"]).
Proof. vm_compute. reflexivity. Qed.

(** The reference formatter on the epoch and on a recent instant. *)
Example format_iso_samples :
  format_iso 0 = "1970-01-01T00:00:00.000Z" /\
  format_iso 1730620800123 = "2024-11-03T08:00:00.123Z" /\
  format_iso (-1) = "1969-12-31T23:59:59.999Z".
Proof. repeat split. Qed.

(** The reference codec on a text with white space and an escape. *)
Example parse_text_sample :
  parse_text ("[ [1, -2] , null,true, {} ," +:+ write_string "x\y" " ]") =
  inr (JArr [JArr [JNum 1; JNum (-2)]; JNull; JBool true; JObj []; JStr "x\y"]).
Proof. vm_compute. reflexivity. Qed.

(** ** Further properties of the worker *)

(** *** Computations that ignore the namespace *)

Lemma kv_blind_ret {A} (a : A) : kv_blind (ret a).
Proof. by intros w d f. Qed.

Lemma kv_blind_lift {A} (o : Outcome A) : kv_blind (lift o).
Proof. by intros w d f. Qed.

Lemma kv_blind_bind {A B} (m : M A) (k : A -> M B) :
  kv_blind m -> (forall a, kv_blind (k a)) -> kv_blind (bind m k).
Proof.
  intros Hm Hk w d f. unfold bind. rewrite Hm.
  destruct (m w) as [[a | e] w1]; simpl; [exact (Hk a w1 d f) | done].
Qed.

Lemma kv_blind_try_catch {A} (m : M A) (h : JsError -> M A) :
  kv_blind m -> (forall e, kv_blind (h e)) -> kv_blind (try_catch m h).
Proof.
  intros Hm Hh w d f. unfold try_catch. rewrite Hm.
  destruct (m w) as [[a | e] w1]; simpl; [done | exact (Hh e w1 d f)].
Qed.

Lemma kv_blind_Date_now : kv_blind Date_now.
Proof. intros w d f. by rewrite !Date_now_run. Qed.

Lemma kv_blind_fetch url headers : kv_blind (fetch url headers).
Proof. intros w d f. unfold fetch. simpl. by destruct (network w). Qed.

Ltac blind :=
  repeat first
    [ progress intros
    | apply kv_blind_ret | apply kv_blind_lift
    | apply kv_blind_Date_now | apply kv_blind_fetch
    | apply kv_blind_bind | apply kv_blind_try_catch
    | match goal with
      | |- kv_blind (if ?b then _ else _) => destruct b
      | |- kv_blind (match ?x with _ => _ end) => destruct x
      end ].

Section Blind.
Context {P : Platform}.

Lemma check_api_blind env timestamp logs : kv_blind (check_api env timestamp logs).
Proof. unfold check_api. blind. Qed.

Lemma ping_app_blind env timestamp logs : kv_blind (ping_app env timestamp logs).
Proof. unfold ping_app. blind. Qed.

End Blind.

(** *** The steps of a run, in full *)

Section StepsInFull.
Context {P : Platform}.

(** Step 2: one call, to the API; one message, stamped, whose text does
    not depend on the messages so far; the flag says whether the API
    accepted.  The clock is read before the call, and after it only when
    it is answered. *)
Lemma check_api_run env timestamp w :
  exists text, forall logs,
    check_api env timestamp logs w =
    (Ret (api_accepts (network w), logs ++ ["[" +:+ timestamp +:+ "] " +:+ text]),
     mkWorld (if answered (network w) then tail (tail (clock w)) else tail (clock w))
             (tail (network w)) (api_call env :: calls w)
             (kv_data w) (kv_faults w) (console w)).
Proof.
  unfold check_api, try_catch, bind, api_call.
  rewrite Date_now_run. unfold fetch. simpl.
  destruct (network w) as [| [response | e] rest]; simpl.
  - eexists. intros logs. reflexivity.
  - rewrite Date_now_run. simpl. unfold lift.
    destruct (ok response); simpl; [| eexists; intros logs; reflexivity].
    destruct (json response) as [data | e]; simpl; [| eexists; intros logs; reflexivity].
    destruct (user_email data) as [email | e]; simpl; eexists; intros logs; reflexivity.
  - eexists. intros logs. reflexivity.
Qed.

(** Step 3, when an application URL is set: one call, to that URL and
    without headers; one message, stamped. *)
Lemma ping_app_run env timestamp w :
  truthy_str (KOYEB_APP_URL env) = true ->
  exists text, forall logs,
    ping_app env timestamp logs w =
    (Ret (logs ++ ["[" +:+ timestamp +:+ "] " +:+ text]),
     mkWorld (if answered (network w) then tail (tail (clock w)) else tail (clock w))
             (tail (network w)) (ping_call env :: calls w)
             (kv_data w) (kv_faults w) (console w)).
Proof.
  intros Hurl. unfold ping_app, try_catch, bind, ping_call. rewrite Hurl.
  rewrite Date_now_run. unfold fetch. simpl.
  destruct (network w) as [| [res | e] rest]; simpl.
  - eexists. intros logs. reflexivity.
  - rewrite Date_now_run. simpl. eexists. intros logs. reflexivity.
  - eexists. intros logs. reflexivity.
Qed.

(** A run with a token, up to its call of [saveLogs]: what it has done
    to the world, and the messages it has gathered. *)
Lemma keepAlive_steps env w :
  truthy_str (KOYEB_TOKEN env) = true ->
  let timestamp := toISOString (hd 0 (clock w)) in
  let pinged := truthy_str (KOYEB_APP_URL env) in
  exists text more w2,
    same_kv w w2 /\
    console w2 = console w /\
    calls w2 = (if pinged then [ping_call env] else []) ++ api_call env :: calls w /\
    network w2 = (if pinged then tail (tail (network w)) else tail (network w)) /\
    length more = (if pinged then 1 else 0)%nat /\
    Forall (stamped timestamp) more /\
    forall source,
      keepAlive env source w =
      bind (saveLogs env
              (start_message timestamp source :: ("[" +:+ timestamp +:+ "] " +:+ text) :: more)
              (api_accepts (network w)))
           (fun _ => ret (mkResult (api_accepts (network w))
              (start_message timestamp source :: ("[" +:+ timestamp +:+ "] " +:+ text) :: more)))
           w2.
Proof.
  intros Htoken timestamp pinged.
  set (w0 := mkWorld (tail (clock w)) (network w) (calls w) (kv_data w) (kv_faults w)
                     (console w)).
  destruct (check_api_run env timestamp w0) as (text & Hapi).
  match type of Hapi with forall _, _ = (_, ?w') => set (w1 := w') in * end.
  assert (forall source,
    keepAlive env source w =
    bind (check_api env timestamp [start_message timestamp source])
      (fun '(flag, logs) =>
         bind (ping_app env timestamp logs)
           (fun logs => bind (saveLogs env logs flag) (fun _ => ret (mkResult flag logs)))) w0)
    as Hrun.
  { intros source. unfold keepAlive, new_Date_toISOString.
    unfold bind at 1 2. rewrite Date_now_run. unfold ret at 1.
    rewrite Htoken. reflexivity. }
  destruct pinged eqn:Hurl; subst pinged.
  - destruct (ping_app_run env timestamp w1 Hurl) as (text2 & Hping).
    match type of Hping with forall _, _ = (_, ?w') => set (w2 := w') in * end.
    exists text, ["[" +:+ timestamp +:+ "] " +:+ text2], w2.
    repeat split; try done.
    + repeat constructor. by exists text2.
    + intros source. rewrite Hrun. unfold bind at 1. rewrite Hapi.
      unfold bind at 1. rewrite Hping. reflexivity.
  - exists text, [], w1. repeat split; try done.
    intros source. rewrite Hrun. unfold bind at 1. rewrite Hapi.
    unfold bind at 1. unfold ping_app. rewrite Hurl. reflexivity.
Qed.

End StepsInFull.

Section RunsInFull.
Context {P : Platform}.

(** A run without a token goes straight to [saveLogs]. *)
Lemma keepAlive_without_token env w :
  truthy_str (KOYEB_TOKEN env) = false ->
  let timestamp := toISOString (hd 0 (clock w)) in
  forall source,
    keepAlive env source w =
    bind (saveLogs env [start_message timestamp source; missing_token_message timestamp] false)
         (fun _ => ret (mkResult false
            [start_message timestamp source; missing_token_message timestamp]))
         (mkWorld (tail (clock w)) (network w) (calls w) (kv_data w) (kv_faults w) (console w)).
Proof.
  intros Htoken timestamp source. unfold keepAlive, new_Date_toISOString.
  unfold bind at 1 2. rewrite Date_now_run. unfold ret at 1.
  rewrite Htoken. reflexivity.
Qed.

(** What is returned after [saveLogs] does not depend on how it went. *)
Lemma after_saveLogs env newLogs status (r : RunResult) w :
  exists w',
    bind (saveLogs env newLogs status) (fun _ => ret r) w = (Ret r, w') /\
    w' = snd (saveLogs env newLogs status w).
Proof.
  unfold bind. destruct (saveLogs_total env newLogs status w) as ([] & w' & ->).
  by exists w'.
Qed.

End RunsInFull.

(** *** What decides the outcome of a run *)

(** X1. The success flag of a run is decided by the token and the answer
    of the API alone: it is true exactly when a token is set and the API
    call is answered 2xx with a body from which the greeting can be
    built. *)
Theorem success_is_api_acceptance (P : Platform) env source w :
  exists r w',
    keepAlive env source w = (Ret r, w') /\
    success r = truthy_str (KOYEB_TOKEN env) && api_accepts (network w).
Proof.
  destruct (truthy_str (KOYEB_TOKEN env)) eqn:Htoken.
  - destruct (keepAlive_steps env w Htoken) as (text & more & w2 & _ & _ & _ & _ & _ & _ & Hrun).
    rewrite Hrun.
    match goal with |- context [bind (saveLogs env ?l ?b) (fun _ => ret ?r) w2] =>
      destruct (after_saveLogs env l b r w2) as (w' & -> & _) end.
    eauto.
  - rewrite (keepAlive_without_token env w Htoken).
    match goal with |- context [bind (saveLogs env ?l ?b) (fun _ => ret ?r) ?w0] =>
      destruct (after_saveLogs env l b r w0) as (w' & -> & _) end.
    eauto.
Qed.

(** X2. The result of a run does not depend on the namespace: neither on
    its contents, nor on its failures, nor on whether one is bound. *)
Theorem result_ignores_namespace (P : Platform) env source w d f bound :
  fst (keepAlive (mkEnv (KOYEB_TOKEN env) (KOYEB_APP_URL env) bound) source (with_kv d f w)) =
  fst (keepAlive env source w).
Proof.
  set (env' := mkEnv (KOYEB_TOKEN env) (KOYEB_APP_URL env) bound).
  destruct (truthy_str (KOYEB_TOKEN env)) eqn:Htoken.
  - assert (forall env0 w0, truthy_str (KOYEB_TOKEN env0) = true ->
      keepAlive env0 source w0 =
      bind (check_api env0 (toISOString (hd 0 (clock w0)))
              [start_message (toISOString (hd 0 (clock w0))) source])
        (fun '(flag, logs) =>
           bind (ping_app env0 (toISOString (hd 0 (clock w0))) logs)
             (fun logs => bind (saveLogs env0 logs flag) (fun _ => ret (mkResult flag logs))))
        (mkWorld (tail (clock w0)) (network w0) (calls w0) (kv_data w0) (kv_faults w0)
                 (console w0))) as Hrun.
    { intros env0 w0 H0. unfold keepAlive, new_Date_toISOString.
      unfold bind at 1 2. rewrite Date_now_run. unfold ret at 1.
      rewrite H0. reflexivity. }
    rewrite (Hrun env' (with_kv d f w)), (Hrun env w) by done.
    simpl clock. set (timestamp := toISOString (hd 0 (clock w))).
    change (mkWorld (tail (clock w)) (network (with_kv d f w)) (calls (with_kv d f w))
                    (kv_data (with_kv d f w)) (kv_faults (with_kv d f w))
                    (console (with_kv d f w)))
      with (with_kv d f (mkWorld (tail (clock w)) (network w) (calls w) (kv_data w)
                                 (kv_faults w) (console w))).
    set (w0 := mkWorld (tail (clock w)) _ _ _ _ _).
    change (check_api env' timestamp) with (check_api env timestamp).
    unfold bind at 1 4. rewrite check_api_blind.
    destruct (check_api env timestamp _ w0) as [[[flag logs] | e] w1]; simpl; [| done].
    change (ping_app env' timestamp) with (ping_app env timestamp).
    unfold bind at 1 3. rewrite ping_app_blind.
    destruct (ping_app env timestamp logs w1) as [[logs2 | e] w2]; simpl; [| done].
    destruct (after_saveLogs env' logs2 flag (mkResult flag logs2) (with_kv d f w2))
      as (wa & -> & _).
    destruct (after_saveLogs env logs2 flag (mkResult flag logs2) w2) as (wb & -> & _).
    reflexivity.
  - rewrite (keepAlive_without_token env' (with_kv d f w)), (keepAlive_without_token env w)
      by done.
    simpl clock.
    match goal with |- fst (bind (saveLogs _ ?l ?b) (fun _ => ret ?r) ?wa) = _ =>
      destruct (after_saveLogs env' l b r wa) as (wa' & -> & _) end.
    match goal with |- _ = fst (bind (saveLogs _ ?l ?b) (fun _ => ret ?r) ?wb) =>
      destruct (after_saveLogs env l b r wb) as (wb' & -> & _) end.
    reflexivity.
Qed.

(** *** The messages of a run *)

(** A run whose API call is answered 2xx with a body the greeting reads:
    it succeeds, and its second message carries the greeting and the time
    the call took. *)
Lemma keepAlive_greets {P : Platform} env source w response rest data name :
  truthy_str (KOYEB_TOKEN env) = true ->
  network w = Ret response :: rest ->
  ok response = true ->
  json response = Ret data ->
  user_email data = Ret name ->
  exists r w',
    keepAlive env source w = (Ret r, w') /\
    success r = true /\
    logs r !! 1%nat =
      Some ("[" +:+ toISOString (hd 0 (clock w)) +:+ "] ✅ Koyeb API 验证成功 (" +:+
            number_to_string (hd 0 (tail (tail (clock w))) - hd 0 (tail (clock w)))
            +:+ "ms) - 用户: " +:+ name).
Proof.
  intros Htoken Hnet Hok Hjson Hgreet.
  unfold keepAlive, new_Date_toISOString.
  unfold bind at 1 2. rewrite Date_now_run. unfold ret at 1.
  rewrite Htoken. cbn [negb].
  set (timestamp := toISOString (hd 0 (clock w))).
  set (w0 := mkWorld _ _ _ _ _ _).
  unfold bind at 1. unfold check_api, try_catch, bind at 1 2 3.
  rewrite Date_now_run. unfold fetch. simpl. rewrite Hnet. simpl.
  rewrite Date_now_run. simpl. rewrite Hok. unfold lift. rewrite Hjson.
  unfold bind at 1 2. cbv beta iota. rewrite Hgreet.
  simpl. unfold bind at 1.
  match goal with |- context [ping_app env timestamp ?l ?w1] =>
    destruct (ping_app_appends env timestamp l w1) as (more & w2 & -> & _) end.
  match goal with |- context [bind (saveLogs env ?l ?b) (fun _ => ret ?r) w2] =>
    destruct (after_saveLogs env l b r w2) as (w' & -> & _) end.
  eexists _, w'. split; [reflexivity |]. split; reflexivity.
Qed.

(** X3. When the API answers 2xx with a body whose [user.email] is a
    non-empty string, the run succeeds and its second message greets that
    address, with the time the call took: the difference of the two
    clock readings around it. *)
Theorem profile_email_is_greeted (P : Platform) env source w response rest data user email :
  truthy_str (KOYEB_TOKEN env) = true ->
  network w = Ret response :: rest ->
  ok response = true ->
  json response = Ret data ->
  get_prop data "user" = Ret (Some user) ->
  get_prop user "email" = Ret (Some (JStr email)) ->
  email <> "" ->
  let timestamp := toISOString (hd 0 (clock w)) in
  let start := hd 0 (tail (clock w)) in
  let stop := hd 0 (tail (tail (clock w))) in
  exists r w',
    keepAlive env source w = (Ret r, w') /\
    success r = true /\
    logs r !! 1%nat =
      Some ("[" +:+ timestamp +:+ "] ✅ Koyeb API 验证成功 (" +:+ number_to_string (stop - start)
                +:+ "ms) - 用户: " +:+ email).
Proof.
  intros Htoken Hnet Hok Hjson Huser Hemail Hne timestamp start stop.
  apply (keepAlive_greets env source w response rest data email); try done.
  unfold user_email. rewrite Huser.
  assert (get_prop_opt (Some user) "email" = Ret (Some (JStr email))) as ->.
  { destruct user; try done. }
  simpl. destruct (String.eqb_spec email ""); [done | reflexivity].
Qed.

Lemma profile_email_is_greeted_witness :
  exists r w',
    keepAlive (P := reference) env_full "Cron Scheduled" world_up = (Ret r, w') /\
    success r = true /\
    logs r !! 1%nat =
      Some ("[2024-11-03T08:00:00.000Z] ✅ Koyeb API 验证成功 (77ms) - 用户: a@b.com").
Proof.
  apply (profile_email_is_greeted reference env_full "Cron Scheduled" world_up
           (mkResponse 200 "OK" (Ret (JObj [("user", JObj [("email", JStr "a@b.com")])])))
           [Throw connection_lost]
           (JObj [("user", JObj [("email", JStr "a@b.com")])])
           (JObj [("email", JStr "a@b.com")]) "a@b.com");
    (reflexivity || discriminate).
Defined.

(** X4. When the API answers 2xx with a body that is not [null] and in
    which [user] is missing or [null], or [user.email] is missing or
    falsy (null, false, 0, the empty string), the run still succeeds and
    greets the user as Unknown. *)
Theorem missing_email_is_unknown (P : Platform) env source w response rest data :
  truthy_str (KOYEB_TOKEN env) = true ->
  network w = Ret response :: rest ->
  ok response = true ->
  json response = Ret data ->
  (get_prop data "user" = Ret None \/
   get_prop data "user" = Ret (Some JNull) \/
   exists user email,
     get_prop data "user" = Ret (Some user) /\
     get_prop user "email" = Ret email /\ truthy email = false) ->
  exists r w',
    keepAlive env source w = (Ret r, w') /\
    success r = true /\
    logs r !! 1%nat =
      Some ("[" +:+ toISOString (hd 0 (clock w)) +:+ "] ✅ Koyeb API 验证成功 (" +:+
            number_to_string (hd 0 (tail (tail (clock w))) - hd 0 (tail (clock w)))
            +:+ "ms) - 用户: Unknown").
Proof.
  intros Htoken Hnet Hok Hjson Hmissing.
  apply (keepAlive_greets env source w response rest data "Unknown"); try done.
  unfold user_email.
  destruct Hmissing as [-> | [-> | (user & email & -> & Hemail & Hfalsy)]]; try reflexivity.
  assert (get_prop_opt (Some user) "email" = Ret email) as ->.
  { destruct user; try done. }
  by rewrite Hfalsy.
Qed.

Lemma missing_email_is_unknown_witness :
  exists r w',
    keepAlive (P := reference) env_full "Manual"
      (mkWorld ticks [Ret (mkResponse 204 "No Content" (Ret (JObj [("user", JObj [("email", JStr "")])])))]
               [] ∅ [] []) = (Ret r, w') /\
    success r = true /\
    logs r !! 1%nat =
      Some ("[2024-11-03T08:00:00.000Z] ✅ Koyeb API 验证成功 (77ms) - 用户: Unknown").
Proof.
  apply (missing_email_is_unknown reference env_full "Manual"
           (mkWorld ticks [Ret (mkResponse 204 "No Content" (Ret (JObj [("user", JObj [("email", JStr "")])])))]
               [] ∅ [] [])
           (mkResponse 204 "No Content" (Ret (JObj [("user", JObj [("email", JStr "")])])))
           [] (JObj [("user", JObj [("email", JStr "")])]));
    try reflexivity.
  right. right. exists (JObj [("email", JStr "")]), (Some (JStr "")).
  repeat split.
Defined.

Lemma start_message_stamped {P : Platform} timestamp source :
  stamped timestamp (start_message timestamp source).
Proof. eexists. reflexivity. Qed.

Lemma missing_token_message_stamped {P : Platform} timestamp :
  stamped timestamp (missing_token_message timestamp).
Proof. eexists. reflexivity. Qed.

(** X5. Every run returns two or three messages, three exactly when a
    token and an application URL are both set; the first is the start
    banner naming the source, and all of them carry the same stamp, the
    time at which the run started. *)
Theorem messages_of_a_run (P : Platform) env source w :
  let timestamp := toISOString (hd 0 (clock w)) in
  exists r w',
    keepAlive env source w = (Ret r, w') /\
    head (logs r) = Some (start_message timestamp source) /\
    Forall (stamped timestamp) (logs r) /\
    length (logs r) =
      (if truthy_str (KOYEB_TOKEN env) && truthy_str (KOYEB_APP_URL env) then 3 else 2)%nat.
Proof.
  intros timestamp.
  destruct (truthy_str (KOYEB_TOKEN env)) eqn:Htoken.
  - destruct (keepAlive_steps env w Htoken)
      as (text & more & w2 & _ & _ & _ & _ & Hlen & Hmore & Hrun).
    rewrite Hrun.
    match goal with |- context [bind (saveLogs env ?l ?b) (fun _ => ret ?r) w2] =>
      destruct (after_saveLogs env l b r w2) as (w' & -> & _) end.
    eexists _, w'. split; [reflexivity |]. simpl. split; [done |]. split.
    + constructor; [apply start_message_stamped |].
      constructor; [by eexists | exact Hmore].
    + rewrite Hlen. by destruct (truthy_str (KOYEB_APP_URL env)).
  - rewrite (keepAlive_without_token env w Htoken).
    match goal with |- context [bind (saveLogs env ?l ?b) (fun _ => ret ?r) ?w0] =>
      destruct (after_saveLogs env l b r w0) as (w' & -> & _) end.
    eexists _, w'. split; [reflexivity |]. simpl. split; [done |]. split; [| done].
    repeat constructor; [apply start_message_stamped | apply missing_token_message_stamped].
Qed.

(** X6. A run with a token issues one call to the Koyeb API, with the
    token as a Bearer authorization, and after it, when an application
    URL is set, one call to that URL without headers, whatever the API
    answered; it issues no other call and consumes no other reply. *)
Theorem network_calls_of_a_run (P : Platform) env source w :
  truthy_str (KOYEB_TOKEN env) = true ->
  let pinged := truthy_str (KOYEB_APP_URL env) in
  exists r w',
    keepAlive env source w = (Ret r, w') /\
    calls w' = (if pinged then [ping_call env] else []) ++ api_call env :: calls w /\
    network w' = drop (if pinged then 2 else 1) (network w).
Proof.
  intros Htoken pinged.
  destruct (keepAlive_steps env w Htoken)
    as (text & more & w2 & _ & _ & Hcalls & Hnet & _ & _ & Hrun).
  rewrite Hrun.
  match goal with |- context [bind (saveLogs env ?l ?b) (fun _ => ret ?r) w2] =>
    destruct (after_saveLogs env l b r w2) as (w' & -> & ->);
    pose proof (saveLogs_network env l b w2) as [Hc Hn] end.
  eexists _, _. split; [reflexivity |].
  rewrite Hc, Hn, Hcalls, Hnet. split; [done |].
  subst pinged. destruct (truthy_str (KOYEB_APP_URL env)); by destruct (network w) as [| ? [| ? ?]].
Qed.

Lemma network_calls_of_a_run_witness :
  exists r w',
    keepAlive (P := reference) env_full "Manual" world_down = (Ret r, w') /\
    calls w' = [ping_call env_full] ++ api_call env_full :: [] /\
    network w' = [].
Proof.
  apply (network_calls_of_a_run reference env_full "Manual" world_down). reflexivity.
Defined.

(** X7. The source of a run only labels its banner: the scheduled run and
    a run under any other source, on the same world, return the same flag
    and the same messages after the first. *)
Theorem source_only_labels_the_banner (P : Platform) env w :
  let timestamp := toISOString (hd 0 (clock w)) in
  exists flag others,
    fst (scheduled env w) =
      Ret (mkResult flag (start_message timestamp "Cron Scheduled" :: others)) /\
    forall source,
      fst (keepAlive env source w) =
      Ret (mkResult flag (start_message timestamp source :: others)).
Proof.
  intros timestamp. unfold scheduled.
  destruct (truthy_str (KOYEB_TOKEN env)) eqn:Htoken.
  - destruct (keepAlive_steps env w Htoken)
      as (text & more & w2 & _ & _ & _ & _ & _ & _ & Hrun).
    exists (api_accepts (network w)), (("[" +:+ timestamp +:+ "] " +:+ text) :: more).
    split; [| intros source]; rewrite Hrun;
      match goal with |- context [bind (saveLogs env ?l ?b) (fun _ => ret ?r) w2] =>
        destruct (after_saveLogs env l b r w2) as (w' & -> & _) end; reflexivity.
  - exists false, [missing_token_message timestamp].
    split; [| intros source]; rewrite (keepAlive_without_token env w Htoken);
      match goal with |- context [bind (saveLogs env ?l ?b) (fun _ => ret ?r) ?w0] =>
        destruct (after_saveLogs env l b r w0) as (w' & -> & _) end; reflexivity.
Qed.

(** *** The routes *)

Lemma handleGetLogs_total {P : Platform} env : total (handleGetLogs env).
Proof. unfold handleGetLogs. destruct (LOG_KV env); auto with total. Qed.

(** X8. Every request is answered, whatever the path, the environment
    and the world: as JSON on the two API routes, as HTML on every other
    path, where the reply is the dashboard rendered from the two flags
    (token set, namespace bound) and the world is left untouched.  Routes
    match the whole path. *)
Theorem every_request_is_answered (P : Platform) dashboard pathname env w :
  exists reply w',
    fetch_handler dashboard pathname env w = (Ret reply, w') /\
    content_type reply =
      (if api_route pathname then "application/json" else "text/html;charset=UTF-8") /\
    (api_route pathname = false ->
     w' = w /\ body reply = dashboard (truthy_str (KOYEB_TOKEN env)) (LOG_KV env)).
Proof.
  unfold fetch_handler, api_route.
  destruct (String.eqb pathname "/api/trigger"); simpl.
  - unfold handleTrigger, bind.
    destruct (keepAlive_total env "Web Dashboard" w) as (r & w' & ->).
    eexists _, _. split; [reflexivity |]. by split.
  - destruct (String.eqb pathname "/api/logs"); simpl.
    + unfold handleGetLogs, bind.
      match goal with |- context [match ?m w with _ => _ end] =>
        assert (total m) as Hm by (destruct (LOG_KV env); auto with total);
        destruct (Hm w) as (history & w' & ->) end.
      eexists _, _. split; [reflexivity |]. by split.
    + eexists _, _. split; [reflexivity |]. by split.
Qed.

Lemma every_request_is_answered_witness :
  exists reply w',
    fetch_handler (P := reference) page0 "/api/logs/" env_full world_up = (Ret reply, w') /\
    content_type reply = "text/html;charset=UTF-8" /\
    w' = world_up /\ body reply = page0 true true.
Proof.
  destruct (every_request_is_answered reference page0 "/api/logs/" env_full world_up)
    as (reply & w' & Hrun & Htype & Hpage).
  exists reply, w'. split; [exact Hrun |]. split; [exact Htype |].
  apply Hpage. reflexivity.
Defined.

(** X9. Listing the history is read-only: a request to [/api/logs] is
    answered without writing to the namespace, reading the clock, using
    the network or logging an error, whatever the namespace holds and
    even when its read throws. *)
Theorem listing_is_read_only (P : Platform) dashboard env w :
  exists reply w',
    fetch_handler dashboard "/api/logs" env w = (Ret reply, w') /\
    kv_data w' = kv_data w /\
    clock w' = clock w /\
    same_network w w' /\
    console w' = console w.
Proof.
  unfold fetch_handler. simpl. unfold handleGetLogs, bind, try_catch, kv_get, kv_op, bind.
  destruct (LOG_KV env); [| by eexists _, _].
  destruct (kv_faults w) as [| [e |] plan]; simpl;
    try (by eexists _, _);
    (destruct (truthy_str (kv_data w !! "history")); [| by eexists _, _]);
    unfold parse; destruct (JSON_parse _); by eexists _, _.
Qed.

(** *** The namespace *)

#[export] Instance other_keys_kept_preorder : PreOrder other_keys_kept.
Proof.
  split; [by intros w key | intros w1 w2 w3 H1 H2 key Hkey].
  by rewrite H2, H1.
Qed.

Lemma Date_now_keys : keeps other_keys_kept Date_now.
Proof. intros w key Hkey. by rewrite Date_now_run. Qed.

Lemma fetch_keys url headers : keeps other_keys_kept (fetch url headers).
Proof. intros w key Hkey. unfold fetch. by destruct (network w). Qed.

Lemma console_error_keys label e : keeps other_keys_kept (console_error label e).
Proof. by intros w key Hkey. Qed.

Lemma kv_get_keys key : keeps other_keys_kept (kv_get key).
Proof.
  intros w key' Hkey. unfold kv_get, kv_op.
  by destruct (kv_faults w) as [| [e |] plan].
Qed.

Lemma kv_put_keys key value : log_key key = true -> keeps other_keys_kept (kv_put key value).
Proof.
  intros Hlog w key' Hkey. unfold kv_put, kv_op.
  assert (key <> key') by (intros ->; congruence).
  destruct (kv_faults w) as [| [e |] plan]; simpl; by rewrite ?lookup_insert_ne.
Qed.

Ltac keys :=
  repeat first
    [ progress intros
    | apply keeps_ret | apply keeps_throw | apply keeps_lift
    | apply Date_now_keys | apply fetch_keys | apply console_error_keys
    | apply kv_get_keys | apply kv_put_keys; reflexivity
    | apply keeps_bind | apply keeps_try_catch
    | apply _
    | match goal with
      | |- keeps _ (if ?b then _ else _) => destruct b
      | |- keeps _ (match ?x with _ => _ end) => destruct x
      end ].

Section Keys.
Context {P : Platform}.

Lemma saveLogs_keys env newLogs status : keeps other_keys_kept (saveLogs env newLogs status).
Proof. unfold saveLogs, new_Date_toISOString, parse, unshift. keys. Qed.

Lemma keepAlive_keys env source : keeps other_keys_kept (keepAlive env source).
Proof.
  unfold keepAlive, new_Date_toISOString, check_api, ping_app.
  keys; apply saveLogs_keys.
Qed.

Lemma handleGetLogs_keys env : keeps other_keys_kept (handleGetLogs env).
Proof. unfold handleGetLogs, parse. keys. Qed.

End Keys.

(** X10. The worker owns two keys of the namespace and no other: neither
    a request, on any path, nor a scheduled run changes the value of a
    key other than [history] and [last_run]. *)
Theorem other_keys_are_untouched (P : Platform) dashboard pathname env w key :
  key <> "history" ->
  key <> "last_run" ->
  kv_data (snd (fetch_handler dashboard pathname env w)) !! key = kv_data w !! key /\
  kv_data (snd (scheduled env w)) !! key = kv_data w !! key.
Proof.
  intros H1 H2.
  assert (log_key key = false) as Hkey.
  { unfold log_key. by destruct (String.eqb_spec key "history"), (String.eqb_spec key "last_run"). }
  split.
  - clear H1 H2. revert key Hkey. change (other_keys_kept w (snd (fetch_handler dashboard pathname env w))).
    revert w. change (keeps other_keys_kept (fetch_handler dashboard pathname env)).
    unfold fetch_handler, handleTrigger.
    destruct (String.eqb pathname "/api/trigger").
    + apply keeps_bind; [apply _ | apply keepAlive_keys | intros; apply keeps_ret; apply _].
    + destruct (String.eqb pathname "/api/logs");
        [apply handleGetLogs_keys | apply keeps_ret; apply _].
  - by apply keepAlive_keys.
Qed.

Lemma other_keys_are_untouched_witness :
  kv_data (snd (fetch_handler (P := reference) page0 "/api/trigger" env_full world_up))
    !! "settings" = kv_data world_up !! "settings" /\
  kv_data (snd (scheduled (P := reference) env_full world_up)) !! "settings" =
    kv_data world_up !! "settings".
Proof.
  apply (other_keys_are_untouched reference page0 "/api/trigger" env_full world_up "settings");
    discriminate.
Defined.

Section Invariant.
Context {P : Platform}.

#[local] Arguments limit : simpl never.
#[local] Arguments take : simpl never.

(** When the namespace is missing, or its read or its first write
    throws, [saveLogs] leaves its contents as they were. *)
Lemma saveLogs_skips env newLogs status w :
  store_unavailable env w ->
  kv_data (snd (saveLogs env newLogs status w)) = kv_data w.
Proof.
  unfold store_unavailable, saveLogs.
  destruct (LOG_KV env); simpl; [| done].
  intros [[=] | Hfault].
  unfold try_catch, bind, kv_get, kv_put, new_Date_toISOString, bind.
  destruct (kv_faults w) as [| [e |] plan] eqn:Hplan; [done | |].
  - by rewrite (kv_op_fault _ w e plan).
  - destruct plan as [| [e' |] plan]; try done.
    rewrite kv_op_run by (rewrite Hplan; exact I). simpl.
    destruct (truthy_str _); [unfold parse; destruct (JSON_parse _) as [e | history] |];
      unfold throw, ret, unshift; simpl; try done.
    + rewrite Date_now_run. simpl. rewrite Hplan. simpl.
      by destruct history.
    + rewrite Date_now_run. simpl. by rewrite Hplan.
Qed.

(** An append either leaves the text under [history] as it was or
    replaces it with the JSON of the old history headed by the record. *)
Lemma saveLogs_history env newLogs status w old :
  stored_history (kv_data w !! "history") = Some old ->
  kv_data (snd (saveLogs env newLogs status w)) !! "history" = kv_data w !! "history" \/
  kv_data (snd (saveLogs env newLogs status w)) !! "history" =
    Some (JSON_stringify (JArr (take LOG_LIMIT
            (logEntry (toISOString (hd 0 (clock w))) status newLogs :: old)))).
Proof.
  intros Hold.
  destruct (LOG_KV env) eqn:HKV;
    [| left; rewrite saveLogs_skips; [done | by left]].
  destruct (kv_faults w) as [| [e |] plan] eqn:Hplan.
  - right. destruct (saveLogs_writes env newLogs status w old) as (w' & -> & Hst);
      [done | by rewrite Hplan | done | done].
  - left. rewrite saveLogs_skips; [done |]. right. by rewrite Hplan.
  - destruct plan as [| [e |] plan].
    + right. destruct (saveLogs_writes env newLogs status w old) as (w' & -> & Hst);
        [done | by rewrite Hplan | done | done].
    + left. rewrite saveLogs_skips; [done |]. right. by rewrite Hplan.
    + right. destruct (saveLogs_writes env newLogs status w old) as (w' & -> & Hst);
        [done | by rewrite Hplan | done | done].
Qed.

End Invariant.

(** X11. A run keeps the stored history readable and bounded, whatever
    the namespace does: from a history that reads as an array, the run
    leaves either the same history, or that history headed by its own
    record and cut to the limit; nothing else is ever stored, and a
    history longer than the limit is cut back to it by the first run
    that is stored. *)
Theorem history_stays_readable (P : Platform) (L : JsonLaws P) env source w old :
  stored_history (kv_data w !! "history") = Some old ->
  exists r w' h,
    keepAlive env source w = (Ret r, w') /\
    stored_history (kv_data w' !! "history") = Some h /\
    (h = old \/
     exists time, h = take LOG_LIMIT (logEntry time (success r) (logs r) :: old)) /\
    (length h <= Nat.max (length old) LOG_LIMIT)%nat.
Proof.
  intros Hold.
  destruct (keepAlive_saves env source w) as (r & w1 & [Hd Hf] & _ & ->).
  destruct (after_saveLogs env (logs r) (success r) r w1) as (w' & -> & ->).
  destruct (saveLogs_history env (logs r) (success r) w1 old) as [Hsame | Hnew];
    [by rewrite Hd | |].
  - exists r, (snd (saveLogs env (logs r) (success r) w1)), old.
    split; [done |]. rewrite Hsame, Hd. split; [done |]. split; [by left | lia].
  - eexists r, _, _. split; [done |]. rewrite Hnew. split; [apply stored_stringify |].
    split; [right; by eexists |]. rewrite length_take. lia.
Qed.

Lemma history_stays_readable_witness :
  exists r w' h,
    keepAlive (P := reference) env_full "Manual" world_put_fault = (Ret r, w') /\
    stored_history (kv_data w' !! "history") = Some h /\
    (h = [] \/
     exists time, h = take LOG_LIMIT (logEntry time (success r) (logs r) :: [])) /\
    (length h <= Nat.max (length (@nil JsValue)) LOG_LIMIT)%nat.
Proof.
  apply (history_stays_readable reference reference_laws env_full "Manual" world_put_fault []).
  reflexivity.
Defined.

(** X12. A text under [history] that does not read as an array blocks
    every later append: on a bound namespace [saveLogs] then writes
    nothing, reports one error on the console, and returns normally. *)
Theorem unreadable_history_blocks_appends (P : Platform) env newLogs status w :
  LOG_KV env = true ->
  stored_history (kv_data w !! "history") = None ->
  exists e w',
    saveLogs env newLogs status w = (Ret tt, w') /\
    kv_data w' = kv_data w /\
    console w' = ("KV Save Error:", e) :: console w.
Proof.
  intros HKV Hbad. unfold saveLogs. rewrite HKV. simpl.
  unfold try_catch, bind, kv_get, kv_put, new_Date_toISOString, bind.
  unfold stored_history in Hbad.
  destruct (kv_data w !! "history") as [text |] eqn:Htext; [| done].
  destruct (String.eqb text "") eqn:Hempty; [done |].
  destruct (kv_faults w) as [| [e |] plan] eqn:Hplan.
  - rewrite kv_op_run by (rewrite Hplan; exact I). simpl. rewrite Htext. simpl.
    rewrite Hempty. simpl. unfold parse.
    destruct (JSON_parse text) as [e | history]; [by eexists _, _ |].
    unfold ret. rewrite Date_now_run. simpl.
    destruct history; try done; by eexists _, _.
  - rewrite (kv_op_fault _ w e plan) by done. by eexists _, _.
  - rewrite kv_op_run by (rewrite Hplan; exact I). simpl. rewrite Htext. simpl.
    rewrite Hempty. simpl. unfold parse.
    destruct (JSON_parse text) as [e | history]; [by eexists _, _ |].
    unfold ret. rewrite Date_now_run. simpl.
    destruct history; try done; by eexists _, _.
Qed.

Lemma unreadable_history_blocks_appends_witness :
  exists e w',
    saveLogs (P := reference) env_full ["run"] true world_garbled = (Ret tt, w') /\
    kv_data w' = kv_data world_garbled /\
    console w' = ("KV Save Error:", e) :: console world_garbled.
Proof.
  apply (unreadable_history_blocks_appends reference env_full ["run"] true world_garbled);
    reflexivity.
Defined.

(** X13. Without a bound namespace a run performs no namespace operation
    and logs no error: the contents, the pending failures and the
    console are as they were. *)
Theorem unbound_namespace_is_never_used (P : Platform) env source w :
  LOG_KV env = false ->
  exists r w',
    keepAlive env source w = (Ret r, w') /\
    same_kv w w' /\
    console w' = console w.
Proof.
  intros HKV.
  assert (forall newLogs status w0, saveLogs env newLogs status w0 = (Ret tt, w0)) as Hskip.
  { intros. unfold saveLogs. by rewrite HKV. }
  destruct (truthy_str (KOYEB_TOKEN env)) eqn:Htoken.
  - destruct (keepAlive_steps env w Htoken)
      as (text & more & w2 & Hkv & Hcon & _ & _ & _ & _ & Hrun).
    rewrite Hrun. unfold bind. rewrite Hskip. by eexists _, _.
  - rewrite (keepAlive_without_token env w Htoken). unfold bind. rewrite Hskip.
    eexists _, _. split; [reflexivity |]. by split.
Qed.

Lemma unbound_namespace_is_never_used_witness :
  exists r w',
    keepAlive (P := reference) (mkEnv (Some "tok") None false) "Manual" world_put_fault =
      (Ret r, w') /\
    same_kv world_put_fault w' /\
    console w' = console world_put_fault.
Proof.
  apply (unbound_namespace_is_never_used reference (mkEnv (Some "tok") None false) "Manual"
           world_put_fault).
  reflexivity.
Defined.

(** *** Requests in sequence *)

(** X14. A request to [/api/trigger] followed by a request to
    [/api/logs], on a bound namespace that answers and holds a readable
    history: the first reply is the JSON of the run's result, and the
    second is the JSON of the history headed by the record of that very
    run, with its flag and its messages, cut to the limit. *)
Theorem trigger_then_list (P : Platform) (L : JsonLaws P) dashboard env w old :
  LOG_KV env = true ->
  calm 4 (kv_faults w) ->
  stored_history (kv_data w !! "history") = Some old ->
  exists r time w1 w2,
    fetch_handler dashboard "/api/trigger" env w =
      (Ret (mkReply (JSON_stringify (result_value r)) "application/json"), w1) /\
    fetch_handler dashboard "/api/logs" env w1 =
      (Ret (mkReply
              (JSON_stringify
                 (JArr (take LOG_LIMIT (logEntry time (success r) (logs r) :: old))))
              "application/json"), w2).
Proof.
  intros HKV (F1 & F2 & F3 & F4 & _) Hold.
  destruct (keepAlive_saves env "Web Dashboard" w) as (r & w0 & [Hd Hf] & _ & Hrun).
  unfold fetch_handler. simpl. unfold handleTrigger. unfold bind at 1. rewrite Hrun.
  unfold bind at 1.
  rewrite (saveLogs_appends env (logs r) (success r) w0 old)
    by (rewrite ?Hd, ?Hf; simpl; auto).
  eexists r, _, _, _. split; [reflexivity |].
  apply handleGetLogs_lists; [done | by simpl; rewrite Hf |].
  simpl. rewrite lookup_insert_ne by done. rewrite lookup_insert_eq.
  apply stored_stringify.
Qed.

Lemma trigger_then_list_witness :
  exists r time w1 w2,
    fetch_handler (P := reference) page0 "/api/trigger" env_full world_down =
      (Ret (mkReply (JSON_stringify (result_value r)) "application/json"), w1) /\
    fetch_handler page0 "/api/logs" env_full w1 =
      (Ret (mkReply
              (JSON_stringify
                 (JArr (take LOG_LIMIT (logEntry time (success r) (logs r) :: []))))
              "application/json"), w2).
Proof.
  apply (trigger_then_list reference reference_laws page0 env_full world_down []);
    [reflexivity | simpl; tauto | reflexivity].
Defined.
